(** * SolarZ.py: the SolarZAPI client, embedded and verified

    The client of [src/SolarZ.py] is one Python class.  Every method builds
    a URL, copies the session headers, calls [requests.get] or
    [requests.post] once inside a [try], branches on the status code and
    returns the parsed body, [True] or [None]; two [except] clauses turn
    every [Exception] into [None].

    The embedding keeps that shape.  Python values that can reach the code
    (what [response.json()] yields) are the type [value]; the methods are
    written in a small monad with the network as a reader, the interpreter
    state as explicit state and Python exceptions as the error channel.
    Header dictionaries are objects in a store, so that [.copy()] and the
    aliasing it avoids are visible. *)

From Stdlib Require Import ZArith Lia Ascii.
From stdpp Require Import gmap strings list pretty.

Open Scope Z_scope.

(** ** Python values *)

(** What [json.loads] can return, which is also every value the methods
    store or return: [None], [bool], [int] (unbounded), [float] (the 64 bits
    of the IEEE-754 double), [str] (its UTF-8 bytes), [list], and [dict]
    with [str] keys. *)
#[warnings="-register-all"]
Inductive value : Type :=
  | PyNone
  | PyBool (b : bool)
  | PyInt (n : Z)
  | PyFloat (bits : Z)
  | PyStr (s : string)
  | PyList (l : list value)
  | PyDict (d : gmap string value).

(** [bool(v)], as [if v:] and [not v] use it.  A float is false when it is
    [0.0] or [-0.0], that is when every bit but the sign bit is clear. *)
Definition truthy (v : value) : bool :=
  match v with
  | PyNone => false
  | PyBool b => b
  | PyInt n => negb (n =? 0)
  | PyFloat bits => negb (Z.land bits (2 ^ 63 - 1) =? 0)
  | PyStr s => negb (String.eqb s "")
  | PyList l => match l with [] => false | _ :: _ => true end
  | PyDict d => negb (Nat.eqb (size d) 0)
  end.

(** [str(b)] for a [bool]. *)
Definition str_bool (b : bool) : string := if b then "True" else "False".

(** [s.lower()] on the letters of ASCII, the only ones it meets here. *)
Definition lower_ascii (c : ascii) : ascii :=
  let n := nat_of_ascii c in
  if (Nat.leb 65 n && Nat.leb n 90)%bool then ascii_of_nat (n + 32) else c.

Fixpoint lower (s : string) : string :=
  match s with
  | EmptyString => EmptyString
  | String c r => String (lower_ascii c) (lower r)
  end.

(** [needle in hay] for two [str]. *)
Fixpoint substring_of (needle hay : string) : bool :=
  String.prefix needle hay ||
  match hay with
  | EmptyString => false
  | String _ r => substring_of needle r
  end.

(** The code points of a [str] held as UTF-8: a byte [10xxxxxx] continues
    the code point before it. *)
Definition continues (s : string) : bool :=
  match s with
  | String c _ => let n := nat_of_ascii c in (Nat.leb 128 n && Nat.ltb n 192)%bool
  | EmptyString => false
  end.

Fixpoint code_points (s : string) : list string :=
  match s with
  | EmptyString => []
  | String c r =>
      if continues r then
        match code_points r with
        | x :: xs => String c x :: xs
        | [] => [String c EmptyString]
        end
      else String c EmptyString :: code_points r
  end.

(** [l[i]] on a sequence of length [length l]: negative indices count from
    the end, anything outside is an [IndexError] ([None] here). *)
Definition index_seq {A} (l : list A) (i : Z) : option A :=
  let len := Z.of_nat (length l) in
  if (0 <=? i) && (i <? len) then l !! Z.to_nat i
  else if (- len <=? i) && (i <? 0) then l !! Z.to_nat (len + i)
  else None.

(** ** Exceptions *)

(** The interpreter's own errors in the operations the methods apply to a
    parsed body of the wrong shape. *)
Inductive interp_error : Type :=
  | not_a_container (v : value)              (* [k in v]: TypeError *)
  | no_attribute (v : value) (attr : string)   (* [v.attr]: AttributeError *)
  | bad_subscript (v : value) (k : value).     (* [v[k]]: TypeError, KeyError, IndexError *)

(** Instances of [Exception], by the [except] clause that takes them:
    [requests.RequestException] (and its subclasses), or anything else. *)
Inductive exn : Type :=
  | RequestException (msg : string)
  | OtherException (msg : string)
  | InterpError (e : interp_error).

Definition is_request_exception (e : exn) : bool :=
  match e with RequestException _ => true | _ => false end.

(** What the code takes from the Python runtime and not from this
    repository: [json.dumps], [str()] of floats, lists and dicts, and the
    wording of the interpreter's error messages. *)
Record Runtime : Type := {
  json_dumps : value -> exn + string;
  str_other : value -> string;
  error_text : interp_error -> string
}.

(** ** Requests, responses and the network *)

Inductive Method : Type := GET | POST.

(** One call of [requests.get] or [requests.post]: the keyword arguments
    the code passes, with the contents of the header dict at the call. *)
Record Request : Type := {
  method : Method;
  url : string;
  req_headers : gmap string string;
  params : option (list (string * value));
  data : option string;
  json_arg : option value
}.

(** A [requests.Response]: [.status_code], [.text], and what [.json()]
    does, return a value or raise. *)
Record Response : Type := {
  status_code : Z;
  text : string;
  json : exn + value
}.

(** What a call does: it returns a response or raises, and it may have
    written to the header dict it was handed. *)
Record Reply : Type := {
  outcome : exn + Response;
  headers_after : gmap string string
}.

Definition Net : Type := Request -> Reply.

(** ** The instance and the store *)

(** The attributes of a [SolarZAPI] object.  [self.headers] is bound once,
    in [__init__]; [headers] is the dict it is bound to. *)
Record SolarZAPI : Type := {
  base_url : string;
  usina_id : value;
  usina_uuid : value;
  headers : gmap string string
}.

(** A reference to a header dict: the one of the instance, or the [n]-th
    dict made by [.copy()]. *)
Inductive ref : Type :=
  | SessionHeaders
  | Local (n : nat).

Record World : Type := {
  self : SolarZAPI;
  locals : list (gmap string string);
  sent : list (ref * Request);
  stdout : list string
}.

Definition deref (w : World) (r : ref) : gmap string string :=
  match r with
  | SessionHeaders => headers (self w)
  | Local n => default ∅ (locals w !! n)
  end.

Definition with_self (f : SolarZAPI -> SolarZAPI) (w : World) : World :=
  {| self := f (self w); locals := locals w; sent := sent w; stdout := stdout w |}.

Definition set_headers (h : gmap string string) (s : SolarZAPI) : SolarZAPI :=
  {| base_url := base_url s; usina_id := usina_id s; usina_uuid := usina_uuid s;
     headers := h |}.

Definition set_usina_id (v : value) (s : SolarZAPI) : SolarZAPI :=
  {| base_url := base_url s; usina_id := v; usina_uuid := usina_uuid s;
     headers := headers s |}.

Definition set_usina_uuid (v : value) (s : SolarZAPI) : SolarZAPI :=
  {| base_url := base_url s; usina_id := usina_id s; usina_uuid := v;
     headers := headers s |}.

(** Overwrite the dict a reference points to. *)
Definition write (r : ref) (h : gmap string string) (w : World) : World :=
  match r with
  | SessionHeaders => with_self (set_headers h) w
  | Local n =>
      {| self := self w; locals := <[n := h]> (locals w); sent := sent w;
         stdout := stdout w |}
  end.

(** ** The monad of method bodies *)

Definition M (A : Type) : Type := Net -> World -> (exn + A) * World.

#[global] Instance M_ret : MRet M := fun A a _ w => (inr a, w).

#[global] Instance M_bind : MBind M := fun A B k m net w =>
  match m net w with
  | (inr a, w') => k a net w'
  | (inl e, w') => (inl e, w')
  end.

Definition raise {A} (e : exn) : M A := fun _ w => (inl e, w).

Definition lift {A} (r : exn + A) : M A := fun _ w => (r, w).

(** [try: body / except requests.RequestException as e: ... / except
    Exception as e: ...] *)
Definition try_except {A} (body : M A) (on_request on_other : exn -> M A) : M A :=
  fun net w =>
    match body net w with
    | (inr a, w') => (inr a, w')
    | (inl e, w') =>
        if is_request_exception e then on_request e net w' else on_other e net w'
    end.

Definition get_self : M SolarZAPI := fun _ w => (inr (self w), w).

Definition modify_self (f : SolarZAPI -> SolarZAPI) : M unit :=
  fun _ w => (inr tt, with_self f w).

(** [print(s)] *)
Definition printed (s : string) (w : World) : World :=
  {| self := self w; locals := locals w; sent := sent w; stdout := stdout w ++ [s] |}.

Definition print (s : string) : M unit := fun _ w => (inr tt, printed s w).

(** [self.headers.copy()]: a new dict with the same entries. *)
Definition copied (w : World) : World :=
  {| self := self w; locals := locals w ++ [headers (self w)]; sent := sent w;
     stdout := stdout w |}.

Definition copy_headers : M ref :=
  fun _ w => (inr (Local (length (locals w))), copied w).

(** [self.headers[k] = v] *)
Definition headers_setitem (k v : string) : M unit :=
  modify_self (fun s => set_headers (<[k := v]> (headers s)) s).

(** The call itself: the network sees the request with the present entries
    of the dict behind [h], the call is logged, and whatever the callee
    wrote to that dict lands in the store. *)
Definition called (h : ref) (rq : Request) (after : gmap string string)
    (w : World) : World :=
  write h after
    {| self := self w; locals := locals w; sent := sent w ++ [(h, rq)];
       stdout := stdout w |}.

Definition call (m : Method) (u : string) (h : ref)
    (ps : option (list (string * value))) (d : option string)
    (j : option value) : M Response :=
  fun net w =>
    let rq := {| method := m; url := u; req_headers := deref w h; params := ps;
                 data := d; json_arg := j |} in
    (outcome (net rq), called h rq (headers_after (net rq)) w).

(** [requests.get(url, headers=headers)] *)
Definition requests_get (u : string) (h : ref) : M Response :=
  call GET u h None None None.

(** [requests.get(url, headers=headers, params=params)] *)
Definition requests_get_params (u : string) (h : ref)
    (ps : list (string * value)) : M Response :=
  call GET u h (Some ps) None None.

(** [requests.post(url, headers=headers, data=data)] *)
Definition requests_post_data (u : string) (h : ref) (d : string) : M Response :=
  call POST u h None (Some d) None.

(** [requests.post(url, headers=headers, json=j)] *)
Definition requests_post_json (u : string) (h : ref) (j : value) : M Response :=
  call POST u h None None (Some j).

(** ** Operations on parsed bodies *)

(** [k in v] *)
Definition py_in (k : string) (v : value) : M bool :=
  match v with
  | PyDict d => mret (bool_decide (is_Some (d !! k)))
  | PyList l =>
      mret (existsb (fun x => match x with PyStr s => String.eqb s k | _ => false end) l)
  | PyStr s => mret (substring_of k s)
  | _ => raise (InterpError (not_a_container v))
  end.

(** [v.get(k)] and [v.get(k, dflt)]; the first is [py_get v k PyNone]. *)
Definition py_get (v : value) (k : string) (dflt : value) : M value :=
  match v with
  | PyDict d => mret (default dflt (d !! k))
  | _ => raise (InterpError (no_attribute v "get"))
  end.

(** [v[k]] for a [str] key. *)
Definition py_getitem_str (v : value) (k : string) : M value :=
  match v with
  | PyDict d =>
      match d !! k with
      | Some x => mret x
      | None => raise (InterpError (bad_subscript v (PyStr k)))
      end
  | _ => raise (InterpError (bad_subscript v (PyStr k)))
  end.

(** [v[i]] for an [int] index. *)
Definition py_getitem_int (v : value) (i : Z) : M value :=
  match v with
  | PyList l =>
      match index_seq l i with
      | Some x => mret x
      | None => raise (InterpError (bad_subscript v (PyInt i)))
      end
  | PyStr s =>
      match index_seq (code_points s) i with
      | Some c => mret (PyStr c)
      | None => raise (InterpError (bad_subscript v (PyInt i)))
      end
  | _ => raise (InterpError (bad_subscript v (PyInt i)))
  end.

(** ** The methods of [SolarZAPI] *)

Section Client.

Context (rt : Runtime).

(** [str(v)], which is what [f"{v}"] inserts. *)
Definition str (v : value) : string :=
  match v with
  | PyNone => "None"
  | PyBool b => str_bool b
  | PyInt n => pretty n
  | PyStr s => s
  | _ => str_other rt v
  end.

(** [str(e)] for a caught exception. *)
Definition str_exn (e : exn) : string :=
  match e with
  | RequestException msg => msg
  | OtherException msg => msg
  | InterpError ie => error_text rt ie
  end.

Definition init : SolarZAPI :=
  {| base_url := "https://app.solarz.com.br";
     usina_id := PyNone;
     usina_uuid := PyNone;
     headers :=
       {[ "Accept" := "application/json";
          "Content-Type" := "application/json";
          "User-Agent" := "Mozilla/5.0 (Windows NT 10.0; Win64; x64) AppleWebKit/537.36 (KHTML, like Gecko) Chrome/128.0.0.0 Safari/537.36" ]} |}.

(** The interpreter state right after [SolarZAPI()]. *)
Definition fresh : World :=
  {| self := init; locals := []; sent := []; stdout := [] |}.

Definition authenticate (username password : string) : M value :=
  s ← get_self;
  let url := base_url s +:+ "/cliente/authenticate" in
  headers ← copy_headers;
  let payload :=
    PyDict {[ "username" := PyStr username; "password" := PyStr password ]} in
  try_except
    (body ← lift (json_dumps rt payload);
     response ← requests_post_data url headers body;
     response_data ← lift (json response);
     if status_code response =? 200 then
       has_token ← py_in "token" response_data;
       if has_token : bool then
         token ← py_get response_data "token" PyNone;
         headers_setitem "Authorization" ("Bearer " +:+ str token);;
         print "Autenticação bem-sucedida!";;
         mret (PyBool true)
       else
         print "Token de autenticação não encontrado na resposta.";;
         mret PyNone
     else
       has_error ← py_in "error" response_data;
       if has_error : bool then
         err ← py_getitem_str response_data "error";
         print ("Erro na autenticação: " +:+ str err);;
         mret PyNone
       else
         print ("Erro inesperado: " +:+ pretty (status_code response) +:+ " - "
                +:+ text response);;
         mret PyNone)
    (fun e => print ("Erro ao tentar autenticar: " +:+ str_exn e);; mret PyNone)
    (fun e => print ("Erro inesperado: " +:+ str_exn e);; mret PyNone).

Definition get_client_context : M value :=
  s ← get_self;
  let url := base_url s +:+ "/cliente/context" in
  headers ← copy_headers;
  try_except
    (response ← requests_get url headers;
     if status_code response =? 200 then
       client_context ← lift (json response);
       print "Contexto do cliente obtido com sucesso!";;
       usinas ← py_get client_context "usinas" (PyList []);
       (if truthy usinas then
          first ← py_getitem_int usinas 0;
          id ← py_get first "id" PyNone;
          modify_self (set_usina_id id);;
          first ← py_getitem_int usinas 0;
          uuid ← py_get first "uuid" PyNone;
          modify_self (set_usina_uuid uuid);;
          s ← get_self;
          print ("UUID da usina armazenado: " +:+ str (usina_uuid s));;
          s ← get_self;
          print ("ID da usina armazenado: " +:+ str (usina_id s))
        else
          print "Nenhuma usina encontrada para este cliente.");;
       mret client_context
     else
       print ("Erro ao obter o contexto do cliente: "
              +:+ pretty (status_code response) +:+ " - " +:+ text response);;
       mret PyNone)
    (fun e => print ("Erro ao tentar obter o contexto do cliente: " +:+ str_exn e);;
              mret PyNone)
    (fun e => print ("Erro inesperado: " +:+ str_exn e);; mret PyNone).

Definition get_last_status : M value :=
  s ← get_self;
  if negb (truthy (usina_id s)) then
    print "Erro: ID da usina não encontrado. Obtenha o contexto do cliente primeiro.";;
    mret PyNone
  else
    let url := base_url s +:+ "/shareable/currently/usina" in
    headers ← copy_headers;
    let params := [("id", usina_id s)] in
    try_except
      (response ← requests_get_params url headers params;
       if status_code response =? 200 then
         status ← lift (json response);
         print "Status da usina obtido com sucesso!";;
         mret status
       else
         print ("Erro ao obter o status: " +:+ pretty (status_code response)
                +:+ " - " +:+ text response);;
         mret PyNone)
      (fun e => print ("Erro ao tentar obter o status: " +:+ str_exn e);; mret PyNone)
      (fun e => print ("Erro inesperado: " +:+ str_exn e);; mret PyNone).

Definition get_last_report : M value :=
  s ← get_self;
  if negb (truthy (usina_uuid s)) then
    print "Erro: UUID da usina não encontrado. Obtenha o contexto do cliente primeiro.";;
    mret PyNone
  else
    let url := base_url s +:+ "/api-sz/app/cliente/plant/" +:+ str (usina_uuid s)
               +:+ "/lastReport" in
    headers ← copy_headers;
    try_except
      (response ← requests_get url headers;
       if status_code response =? 200 then
         last_report ← lift (json response);
         print "Último relatório da usina obtido com sucesso!";;
         mret last_report
       else
         print ("Erro ao obter o relatório: " +:+ pretty (status_code response)
                +:+ " - " +:+ text response);;
         mret PyNone)
      (fun e => print ("Erro ao tentar obter o relatório: " +:+ str_exn e);; mret PyNone)
      (fun e => print ("Erro inesperado: " +:+ str_exn e);; mret PyNone).

Definition get_economized : M value :=
  s ← get_self;
  let url := base_url s +:+ "/api-sz/app/cliente/home/economizados" in
  headers ← copy_headers;
  try_except
    (response ← requests_get url headers;
     if status_code response =? 200 then
       body ← lift (json response);
       print "Dados de economia obtidos com sucesso!";;
       mret body
     else
       print ("Erro ao obter os dados economizados: " +:+ pretty (status_code response) +:+ " - "
              +:+ text response);;
       mret PyNone)
    (fun e => print ("Erro ao tentar obter os dados economizados: " +:+ str_exn e);; mret PyNone)
    (fun e => print ("Erro inesperado: " +:+ str_exn e);; mret PyNone).

Definition get_generation_day (date : string) (unite_portals : bool) : M value :=
  s ← get_self;
  if negb (truthy (usina_id s)) then
    print "Erro: ID da usina não encontrado. Obtenha o contexto do cliente primeiro.";;
    mret PyNone
  else
    let url := base_url s +:+ "/api-sz/generation/day" in
    headers ← copy_headers;
    let params :=
      [("usinaId", usina_id s);
       ("day", PyStr date);
       ("unitePortals", PyStr (lower (str_bool unite_portals)))] in
    try_except
      (response ← requests_get_params url headers params;
       if status_code response =? 200 then
         generation_data ← lift (json response);
         print "Dados de geração obtidos com sucesso!";;
         mret generation_data
       else
         print ("Erro ao obter os dados de geração: " +:+ pretty (status_code response)
                +:+ " - " +:+ text response);;
         mret PyNone)
      (fun e => print ("Erro ao tentar obter os dados de geração: " +:+ str_exn e);;
                mret PyNone)
      (fun e => print ("Erro inesperado: " +:+ str_exn e);; mret PyNone).

Definition get_generation_period (start_date end_date period : string)
    (unite_months unite_portals : bool) : M value :=
  s ← get_self;
  if negb (truthy (usina_id s)) then
    print "Erro: ID da usina não encontrado. Obtenha o contexto do cliente primeiro.";;
    mret PyNone
  else
    let url := base_url s +:+ "/api-sz/generation/period" in
    headers ← copy_headers;
    let params :=
      [("usinaId", usina_id s);
       ("start", PyStr start_date);
       ("end", PyStr end_date);
       ("uniteMonths", PyStr (lower (str_bool unite_months)));
       ("unitePortals", PyStr (lower (str_bool unite_portals)));
       ("period", PyStr period)] in
    try_except
      (response ← requests_get_params url headers params;
       if status_code response =? 200 then
         generation_data ← lift (json response);
         print "Dados de geração obtidos com sucesso!";;
         mret generation_data
       else
         print ("Erro ao obter os dados de geração: " +:+ pretty (status_code response)
                +:+ " - " +:+ text response);;
         mret PyNone)
      (fun e => print ("Erro ao tentar obter os dados de geração: " +:+ str_exn e);;
                mret PyNone)
      (fun e => print ("Erro inesperado: " +:+ str_exn e);; mret PyNone).

Definition get_unidade_sums : M value :=
  s ← get_self;
  let url := base_url s +:+ "/api-sz/app/cliente/unidades/sums" in
  headers ← copy_headers;
  try_except
    (response ← requests_get url headers;
     if status_code response =? 200 then
       body ← lift (json response);
       print "Somas das unidades obtidas com sucesso!";;
       mret body
     else
       print ("Erro ao obter as somas das unidades: " +:+ pretty (status_code response) +:+ " - "
              +:+ text response);;
       mret PyNone)
    (fun e => print ("Erro ao tentar obter as somas das unidades: " +:+ str_exn e);; mret PyNone)
    (fun e => print ("Erro inesperado: " +:+ str_exn e);; mret PyNone).

Definition get_unidade_credit : M value :=
  s ← get_self;
  let url := base_url s +:+ "/api-sz/app/cliente/unidades/credit" in
  headers ← copy_headers;
  try_except
    (response ← requests_get url headers;
     if status_code response =? 200 then
       body ← lift (json response);
       print "Crédito das unidades obtido com sucesso!";;
       mret body
     else
       print ("Erro ao obter o crédito das unidades: " +:+ pretty (status_code response) +:+ " - "
              +:+ text response);;
       mret PyNone)
    (fun e => print ("Erro ao tentar obter o crédito das unidades: " +:+ str_exn e);; mret PyNone)
    (fun e => print ("Erro inesperado: " +:+ str_exn e);; mret PyNone).

Definition get_unidade_by_period (start_date end_date : string) : M value :=
  s ← get_self;
  let url := base_url s +:+ "/api-sz/app/cliente/unidades" in
  headers ← copy_headers;
  let params := [("start", PyStr start_date); ("end", PyStr end_date)] in
  try_except
    (response ← requests_get_params url headers params;
     if status_code response =? 200 then
       period_data ← lift (json response);
       print "Dados das unidades por período obtidos com sucesso!";;
       mret period_data
     else
       print ("Erro ao obter os dados das unidades por período: "
              +:+ pretty (status_code response) +:+ " - " +:+ text response);;
       mret PyNone)
    (fun e => print ("Erro ao tentar obter os dados das unidades por período: "
                     +:+ str_exn e);; mret PyNone)
    (fun e => print ("Erro inesperado: " +:+ str_exn e);; mret PyNone).

Definition get_notifications (page : Z) : M value :=
  s ← get_self;
  let url := base_url s +:+ "/cliente/notifications/page/" +:+ pretty page in
  headers ← copy_headers;
  try_except
    (response ← requests_get url headers;
     if status_code response =? 200 then
       body ← lift (json response);
       print "Notificações obtidas com sucesso!";;
       mret body
     else
       print ("Erro ao obter as notificações: " +:+ pretty (status_code response) +:+ " - "
              +:+ text response);;
       mret PyNone)
    (fun e => print ("Erro ao tentar obter as notificações: " +:+ str_exn e);; mret PyNone)
    (fun e => print ("Erro inesperado: " +:+ str_exn e);; mret PyNone).

Definition mark_all_notifications_seen : M value :=
  s ← get_self;
  let url := base_url s +:+ "/cliente/notifications/seenAll" in
  headers ← copy_headers;
  try_except
    (response ← requests_post_json url headers (PyDict ∅);
     if status_code response =? 200 then
       print "Todas as notificações foram marcadas como lidas com sucesso!";;
       mret (PyBool true)
     else
       print ("Erro ao marcar notificações como lidas: "
              +:+ pretty (status_code response) +:+ " - " +:+ text response);;
       mret PyNone)
    (fun e => print ("Erro ao tentar marcar notificações como lidas: " +:+ str_exn e);;
              mret PyNone)
    (fun e => print ("Erro inesperado: " +:+ str_exn e);; mret PyNone).

(** ** Sequences of calls *)

(** One method call with its arguments. *)
Inductive Call : Type :=
  | Authenticate (username password : string)
  | GetClientContext
  | GetLastStatus
  | GetLastReport
  | GetEconomized
  | GetGenerationDay (date : string) (unite_portals : bool)
  | GetGenerationPeriod (start_date end_date period : string)
      (unite_months unite_portals : bool)
  | GetUnidadeSums
  | GetUnidadeCredit
  | GetUnidadeByPeriod (start_date end_date : string)
  | GetNotifications (page : Z)
  | MarkAllNotificationsSeen.

Definition run (c : Call) : M value :=
  match c with
  | Authenticate u p => authenticate u p
  | GetClientContext => get_client_context
  | GetLastStatus => get_last_status
  | GetLastReport => get_last_report
  | GetEconomized => get_economized
  | GetGenerationDay d up => get_generation_day d up
  | GetGenerationPeriod sd ed p um up => get_generation_period sd ed p um up
  | GetUnidadeSums => get_unidade_sums
  | GetUnidadeCredit => get_unidade_credit
  | GetUnidadeByPeriod sd ed => get_unidade_by_period sd ed
  | GetNotifications p => get_notifications p
  | MarkAllNotificationsSeen => mark_all_notifications_seen
  end.

(** A program using the client: calls in order, each with the behaviour of
    the network during it. *)
Definition step (w : World) (cn : Call * Net) : World := (run cn.1 cn.2 w).2.

Definition steps (cs : list (Call * Net)) (w : World) : World := foldl step w cs.

(** ** Vocabulary of the statements *)

Definition is_authenticate (c : Call) : bool :=
  match c with Authenticate _ _ => true | _ => false end.

Definition is_get_client_context (c : Call) : bool :=
  match c with GetClientContext => true | _ => false end.


(** Calling [c] in [w] under [net] makes exactly one call of [requests],
    with request [rq]. *)
Definition issued (c : Call) (net : Net) (w : World) (rq : Request) : Prop :=
  sent (run c net w).2 = sent w ++ [(Local (length (locals w)), rq)].

(** ... and the network answers it with the response [resp]. *)
Definition exchange (c : Call) (net : Net) (w : World) (rq : Request)
    (resp : Response) : Prop :=
  issued c net w rq ∧ outcome (net rq) = inr resp.

(** The call [cn], made in [w], is an [authenticate] that returns [True]. *)
Definition reauthenticates (cn : Call * Net) (w : World) : bool :=
  is_authenticate cn.1 &&
  match (run cn.1 cn.2 w).1 with inr (PyBool true) => true | _ => false end.

(** No call of [cs], made in turn from [w], is a successful [authenticate]. *)
Fixpoint token_kept (cs : list (Call * Net)) (w : World) : bool :=
  match cs with
  | [] => true
  | cn :: cs' => negb (reauthenticates cn w) && token_kept cs' (step w cn)
  end.

(** The requests made between [w] and a later [w']. *)
Definition issued_since (w w' : World) : list (ref * Request) :=
  drop (length (sent w)) (sent w').

(** Everything that holds of every call, whatever the network does: it
    returns a value; it makes no call of [requests] or one, through a fresh
    copy that holds the session headers; [base_url] stays; the session
    headers stay unless the call is [authenticate], which may only add the
    [Authorization] entry; the plant identifiers stay unless the call is
    [get_client_context]. *)
Definition framed (c : Call) (net : Net) (w : World) (r : exn + value)
    (w' : World) : Prop :=
  (∃ v, r = inr v) ∧
  (sent w' = sent w ∨
   ∃ rq, sent w' = sent w ++ [(Local (length (locals w)), rq)] ∧
         req_headers rq = headers (self w)) ∧
  base_url (self w') = base_url (self w) ∧
  (headers (self w') = headers (self w) ∨
   is_authenticate c = true ∧ r = inr (PyBool true) ∧
   ∃ t, headers (self w') = <["Authorization" := "Bearer " +:+ str t]> (headers (self w))) ∧
  (is_get_client_context c = false ->
   usina_id (self w') = usina_id (self w) ∧ usina_uuid (self w') = usina_uuid (self w)).

(** The identifiers of [w] come from entry 0 of the plant list that some
    [get_client_context] among the calls [cs] received. *)
Definition from_first_plant (cs : list (Call * Net)) (w : World) : Prop :=
  ∃ cs1 net cs2 rq resp d e rest,
    cs = cs1 ++ (GetClientContext, net) :: cs2 ∧
    exchange GetClientContext net (steps cs1 fresh) rq resp ∧
    status_code resp = 200 ∧ json resp = inr (PyDict d) ∧
    d !! "usinas" = Some (PyList (PyDict e :: rest)) ∧
    usina_id (self w) = default PyNone (e !! "id") ∧
    usina_uuid (self w) = default PyNone (e !! "uuid").

End Client.

(** The plant list of a context payload, as [get_client_context] reads it:
    [client_context.get('usinas', [])]. *)
Definition usinas_of (d : gmap string value) : value :=
  default (PyList []) (d !! "usinas").

(** A context payload the method gets through: a dict whose plant list is
    false (absent, empty, [null], ...) or a list that starts with a dict. *)
Definition context_shaped (body : value) : Prop :=
  ∃ d, body = PyDict d ∧
       (truthy (usinas_of d) = false ∨
        ∃ e rest, usinas_of d = PyList (PyDict e :: rest)).

(** The two messages of the local precondition failure. *)
Definition no_usina_id : string :=
  "Erro: ID da usina não encontrado. Obtenha o contexto do cliente primeiro.".

Definition no_usina_uuid : string :=
  "Erro: UUID da usina não encontrado. Obtenha o contexto do cliente primeiro.".

(** The outcome [out] of a method called in [w] is the local failure with
    message [msg]: [None] is returned, the message is printed and that is
    all, so in particular no call of [requests] was made. *)
Definition local_failure (msg : string) (out : (exn + value) * World)
    (w : World) : Prop :=
  out.1 = inr PyNone ∧ out.2 = printed msg w ∧ sent out.2 = sent w.

(** [m] run in [w] under [net] ends in a result and a state that satisfy [Q]. *)
Definition wp {A} (m : M A) (net : Net) (w : World)
    (Q : exn + A -> World -> Prop) : Prop :=
  Q (m net w).1 (m net w).2.

(** ** Concrete runtime, networks and payloads for the examples *)

Definition rt0 : Runtime :=
  {| json_dumps := fun _ => inr "{}";
     str_other := fun _ => "?";
     error_text := fun _ => "error" |}.

(** A response with status [code] whose body parses to [body]. *)
Definition response_of (code : Z) (body : value) : Response :=
  {| status_code := code; text := ""; json := inr body |}.

(** A network that answers every request with [response_of code body], and
    that also scribbles on the header dict it was given. *)
Definition answering (code : Z) (body : value) : Net :=
  fun rq =>
    {| outcome := inr (response_of code body);
       headers_after := <["X-Scribble" := "1"]> (req_headers rq) |}.

(** A network that answers with a body that is not JSON. *)
Definition garbled (code : Z) : Net :=
  fun rq =>
    {| outcome := inr {| status_code := code; text := "<html>";
                         json := inl (RequestException "Expecting value") |};
       headers_after := req_headers rq |}.

(** A network on which every call raises. *)
Definition failing (e : exn) : Net :=
  fun rq => {| outcome := inl e; headers_after := req_headers rq |}.

Definition token_abc : gmap string value := {[ "token" := PyStr "abc" ]}.

(** A request of a new instance. *)
Definition request_of_fresh (m : Method) (path : string)
    (ps : option (list (string * value))) (d : option string)
    (j : option value) : Request :=
  {| method := m; url := "https://app.solarz.com.br" +:+ path;
     req_headers := headers init; params := ps; data := d; json_arg := j |}.

Definition plant (id uuid : value) : gmap string value :=
  {[ "id" := id; "uuid" := uuid ]}.

Definition context_of (usinas : list value) : gmap string value :=
  {[ "usinas" := PyList usinas ]}.

(** The state of a new instance after [get_client_context] has received
    the plant list [usinas]. *)
Definition with_plants (usinas : list value) : World :=
  (get_client_context rt0 (answering 200 (PyDict (context_of usinas))) fresh).2.

(** ** Vocabulary of the further properties *)

(** [requests.get(base_url + path, headers=<copy>, params=ps)] made in [w]. *)
Definition get_request (w : World) (path : string)
    (ps : option (list (string * value))) : Request :=
  {| method := GET; url := base_url (self w) +:+ path;
     req_headers := headers (self w); params := ps; data := None;
     json_arg := None |}.

(** [requests.post(base_url + path, headers=<copy>, data=d, json=j)] made in [w]. *)
Definition post_request (w : World) (path : string) (d : option string)
    (j : option value) : Request :=
  {| method := POST; url := base_url (self w) +:+ path;
     req_headers := headers (self w); params := None; data := d;
     json_arg := j |}.

(** The [payload] of [authenticate]. *)
Definition credentials (username password : string) : value :=
  PyDict {[ "username" := PyStr username; "password" := PyStr password ]}.

(** The lines printed between [w] and a later [w']. *)
Definition printed_since (w w' : World) : list string :=
  drop (length (stdout w)) (stdout w').

(** The four header names the class ever uses. *)
Definition header_names : list string :=
  ["Accept"; "Content-Type"; "User-Agent"; "Authorization"].

(** ** Rules for running method bodies *)

Section Rules.

Implicit Types (net : Net) (w : World).

Lemma wp_ret {A} (a : A) net w Q : Q (inr a) w -> wp (mret a) net w Q.
Proof. done. Qed.

Lemma wp_bind {A B} (m : M A) (k : A -> M B) net w Q :
  wp m net w (fun r w' => match r with
                          | inl e => Q (inl e) w'
                          | inr a => wp (k a) net w' Q
                          end) ->
  wp (m ≫= k) net w Q.
Proof.
  unfold wp, mbind, M_bind. destruct (m net w) as [[e|a] w']; simpl; auto.
Qed.

Lemma wp_try {A} (body : M A) h1 h2 net w Q :
  wp body net w (fun r w' => match r with
                             | inr a => Q (inr a) w'
                             | inl e => if is_request_exception e
                                        then wp (h1 e) net w' Q
                                        else wp (h2 e) net w' Q
                             end) ->
  wp (try_except body h1 h2) net w Q.
Proof.
  unfold wp, try_except. destruct (body net w) as [[e|a] w']; simpl; auto.
  destruct (is_request_exception e); auto.
Qed.

Lemma wp_raise {A} e net w (Q : exn + A -> World -> Prop) :
  Q (inl e) w -> wp (raise e) net w Q.
Proof. done. Qed.

Lemma wp_lift {A} (r : exn + A) net w Q : Q r w -> wp (lift r) net w Q.
Proof. done. Qed.

Lemma wp_get_self net w Q : Q (inr (self w)) w -> wp get_self net w Q.
Proof. done. Qed.

Lemma wp_modify_self f net w Q :
  Q (inr tt) (with_self f w) -> wp (modify_self f) net w Q.
Proof. done. Qed.

Lemma wp_print s net w Q : Q (inr tt) (printed s w) -> wp (print s) net w Q.
Proof. done. Qed.

Lemma wp_copy_headers net w Q :
  Q (inr (Local (length (locals w)))) (copied w) -> wp copy_headers net w Q.
Proof. done. Qed.

Lemma wp_call m u h ps d j net w Q :
  (let rq := {| method := m; url := u; req_headers := deref w h; params := ps;
                data := d; json_arg := j |} in
   Q (outcome (net rq)) (called h rq (headers_after (net rq)) w)) ->
  wp (call m u h ps d j) net w Q.
Proof. done. Qed.

(** The copy just made holds the entries of the session dict. *)
Lemma deref_copied w :
  deref (copied w) (Local (length (locals w))) = headers (self w).
Proof. unfold deref, copied; simpl. by rewrite list_lookup_middle. Qed.

Lemma sent_called h rq after w : sent (called h rq after w) = sent w ++ [(h, rq)].
Proof. by destruct h. Qed.

End Rules.

(** One step of symbolic execution of a method body. *)
Ltac wp_prim :=
  lazymatch goal with
  | |- wp (mret _) _ _ _ => apply wp_ret
  | |- wp (_ ≫= _) _ _ _ => apply wp_bind
  | |- wp (try_except _ _ _) _ _ _ => apply wp_try
  | |- wp (raise _) _ _ _ => apply wp_raise
  | |- wp (lift _) _ _ _ => apply wp_lift
  | |- wp get_self _ _ _ => apply wp_get_self
  | |- wp (modify_self _) _ _ _ => apply wp_modify_self
  | |- wp (headers_setitem _ _) _ _ _ => apply wp_modify_self
  | |- wp (print _) _ _ _ => apply wp_print
  | |- wp copy_headers _ _ _ => apply wp_copy_headers
  | |- wp (call _ _ _ _ _ _) _ _ _ =>
      apply wp_call; rewrite ?deref_copied; intros ?rq
  | |- wp (requests_get _ _) _ _ _ => unfold requests_get
  | |- wp (requests_get_params _ _ _) _ _ _ => unfold requests_get_params
  | |- wp (requests_post_data _ _ _) _ _ _ => unfold requests_post_data
  | |- wp (requests_post_json _ _ _) _ _ _ => unfold requests_post_json
  | |- wp (py_in _ _) _ _ _ => unfold py_in
  | |- wp (py_get _ _ _) _ _ _ => unfold py_get
  | |- wp (py_getitem_str _ _) _ _ _ => unfold py_getitem_str
  | |- wp (py_getitem_int _ _) _ _ _ => unfold py_getitem_int
  | |- wp (if ?b then _ else _) _ _ _ => destruct b eqn:?
  | |- wp (match ?x with _ => _ end) _ _ _ => destruct x eqn:?
  | |- wp (let _ := _ in _) _ _ _ => cbv zeta
  | |- if is_request_exception ?e then _ else _ =>
      first [ is_var e; destruct (is_request_exception e) eqn:?
            | cbn [is_request_exception] ]
  | |- match ?x with inl _ => _ | inr _ => _ end => destruct x eqn:?
  end.

Ltac wp_run := repeat (cbv beta iota; wp_prim).

Ltac unfold_methods :=
  unfold run, authenticate, get_client_context, get_last_status, get_last_report,
    get_economized, get_generation_day, get_generation_period, get_unidade_sums,
    get_unidade_credit, get_unidade_by_period, get_notifications,
    mark_all_notifications_seen.

(** ** What every call leaves alone *)

Section Frame.

Context (rt : Runtime).
Implicit Types (net : Net) (w : World) (c : Call).

Lemma run_framed c net w : wp (run rt c) net w (framed rt c net w).
Proof.
  destruct c; unfold_methods; wp_run.
  all: unfold framed; simpl.
  all: rewrite ?sent_called.
  all: repeat split; eauto; try discriminate.
Qed.

End Frame.

(** ** Reading the log of calls *)

Lemma sent_no_call (w : World) (x : ref * Request) : sent w = sent w ++ [x] -> False.
Proof.
  intros H. apply (f_equal length) in H. rewrite length_app in H. simpl in H. lia.
Qed.

Lemma sent_one_call (w : World) (x y : ref * Request) :
  sent w ++ [x] = sent w ++ [y] -> x = y.
Proof. intros H. apply app_inv_head in H. congruence. Qed.

(** Use a hypothesis [H] on the log of calls after a run: either no call
    was made, which [H] excludes, or the request is the one of the run. *)
Ltac sent_inv H :=
  simpl in H;
  first [ destruct (sent_no_call _ _ H)
        | apply sent_one_call in H; simplify_eq ].

Ltac bools :=
  repeat match goal with
  | H : (_ =? _) = true |- _ => apply Z.eqb_eq in H
  | H : (_ =? _) = false |- _ => apply Z.eqb_neq in H
  | H : bool_decide _ = false |- _ => apply bool_decide_eq_false in H
  | H : bool_decide _ = true |- _ => apply bool_decide_eq_true in H
  end.

(** Two equations on the same term: keep one. *)
Ltac merge :=
  repeat match goal with
  | H1 : ?x = _, H2 : ?x = _ |- _ => rewrite H1 in H2; simplify_eq
  end.

(** ** Runs of several calls *)

Section Runs.

Context (rt : Runtime).
Implicit Types (net : Net) (w : World) (c : Call) (cs : list (Call * Net)).

Lemma steps_snoc cs c net w :
  steps rt (cs ++ [(c, net)]) w = step rt (steps rt cs w) (c, net).
Proof. unfold steps. by rewrite foldl_app. Qed.

Lemma step_framed c net w :
  framed rt c net w (run rt c net w).1 (step rt w (c, net)).
Proof. apply run_framed. Qed.

Lemma step_headers c net w :
  is_authenticate c = false ->
  headers (self (step rt w (c, net))) = headers (self w).
Proof.
  intros Hc. destruct (step_framed c net w) as (_ & _ & _ & [H | (H & _)] & _).
  - done.
  - congruence.
Qed.

Lemma step_plant_ids c net w :
  is_get_client_context c = false ->
  usina_id (self (step rt w (c, net))) = usina_id (self w) ∧
  usina_uuid (self (step rt w (c, net))) = usina_uuid (self w).
Proof. intros Hc. by destruct (step_framed c net w) as (_ & _ & _ & _ & H); apply H. Qed.

(** What one call adds to the log carries the session headers. *)
Lemma step_sent c net w :
  ∃ new, sent (step rt w (c, net)) = sent w ++ new ∧
         Forall (fun x => x.1 ≠ SessionHeaders ∧ req_headers x.2 = headers (self w)) new.
Proof.
  destruct (step_framed c net w) as (_ & [H | (rq & H & Hrq)] & _).
  - exists []. by rewrite app_nil_r.
  - exists [(Local (length (locals w)), rq)]. split; [done|].
    by repeat constructor.
Qed.

(** A call that is not a successful [authenticate] keeps the session
    headers. *)
Lemma step_headers_kept c net w :
  reauthenticates rt (c, net) w = false ->
  headers (self (step rt w (c, net))) = headers (self w).
Proof.
  intros Hc. destruct (step_framed c net w) as (_ & _ & _ & [H | (Ha & Hr & _)] & _).
  - done.
  - unfold reauthenticates in Hc. simpl in Hc. by rewrite Ha, Hr in Hc.
Qed.

(** Until [authenticate] succeeds again, the session headers stay and
    every request carries them. *)
Lemma steps_requests cs w :
  token_kept rt cs w = true ->
  headers (self (steps rt cs w)) = headers (self w) ∧
  ∃ new, sent (steps rt cs w) = sent w ++ new ∧
         Forall (fun x => req_headers x.2 = headers (self w)) new.
Proof.
  revert w. induction cs as [|[c net] cs IH]; intros w HF.
  - split; [done|]. exists []. by rewrite app_nil_r.
  - simpl in HF. apply andb_true_iff in HF as [Hc HF].
    apply negb_true_iff in Hc.
    destruct (IH (step rt w (c, net)) HF) as (Hh & new & Hs & Hnew).
    destruct (step_sent c net w) as (new1 & Hs1 & Hnew1).
    pose proof (step_headers_kept c net w Hc) as Hh1.
    change (steps rt ((c, net) :: cs) w) with (steps rt cs (step rt w (c, net))).
    split; [congruence|].
    exists (new1 ++ new). split.
    + by rewrite Hs, Hs1, <-app_assoc.
    + apply Forall_app. split.
      * eapply Forall_impl; [exact Hnew1|]. by intros x [_ ?].
      * eapply Forall_impl; [exact Hnew|]. intros x ?. congruence.
Qed.

End Runs.

(** ** authenticate *)

Section Authenticate.

Context (rt : Runtime).
Implicit Types (net : Net) (w : World).

(** The one way to succeed. *)
Lemma authenticate_success u p net w :
  wp (authenticate rt u p) net w (fun r w' =>
    ∀ rq resp d t,
      sent w' = sent w ++ [(Local (length (locals w)), rq)] ->
      outcome (net rq) = inr resp -> status_code resp = 200 ->
      json resp = inr (PyDict d) -> d !! "token" = Some t ->
      r = inr (PyBool true) ∧
      headers (self w') =
        <["Authorization" := "Bearer " +:+ str rt t]> (headers (self w))).
Proof.
  unfold authenticate; wp_run.
  all: intros rq' resp d' t Hs Ho H200 Hj Ht; sent_inv Hs; bools; merge; try done.
  - rewrite Ht. done.
  - destruct Heqb0. eauto.
Qed.

(** Every other way fails and leaves the instance as it was. *)
Lemma authenticate_failure u p net w :
  wp (authenticate rt u p) net w (fun r w' =>
    (∃ rq resp d t,
       sent w' = sent w ++ [(Local (length (locals w)), rq)] ∧
       outcome (net rq) = inr resp ∧ status_code resp = 200 ∧
       json resp = inr (PyDict d) ∧ d !! "token" = Some t) ∨
    (r = inr PyNone ∧ self w' = self w)).
Proof.
  unfold authenticate; wp_run.
  all: try (right; split; reflexivity).
  left. bools. destruct Heqb0 as [t Ht].
  eexists _, _, _, _. repeat split; eauto.
Qed.

(** C1. When the response to [authenticate] has status 200 and its body is
    an object with a ['token'] entry [t], the method returns [True] and the
    session headers gain ['Authorization'] with value ['Bearer ' + str(t)]
    (for a string [t], ['Bearer ' + t]); the other entries stay.  From then
    on every request of every method carries that entry, up to and
    including the request of the next [authenticate] that succeeds. *)
Theorem authenticate_stores_bearer_token u p net w rq resp d t :
  exchange rt (Authenticate u p) net w rq resp ->
  status_code resp = 200 ->
  json resp = inr (PyDict d) ->
  d !! "token" = Some t ->
  let bearer := "Bearer " +:+ str rt t in
  let w' := (authenticate rt u p net w).2 in
  (authenticate rt u p net w).1 = inr (PyBool true) ∧
  headers (self w') = <["Authorization" := bearer]> (headers (self w)) ∧
  headers (self w') !! "Authorization" = Some bearer ∧
  ∀ cs c net',
    token_kept rt cs w' = true ->
    Forall (fun x => req_headers x.2 !! "Authorization" = Some bearer)
      (issued_since w' (steps rt (cs ++ [(c, net')]) w')).
Proof.
  intros [Hs Ho] H200 Hj Ht bearer w'.
  destruct (authenticate_success u p net w rq resp d t Hs Ho H200 Hj Ht) as [Hr Hh].
  fold w' in Hh.
  assert (Hb : headers (self w') !! "Authorization" = Some bearer).
  { rewrite Hh. apply lookup_insert_eq. }
  repeat split; try done.
  intros cs c net' HF.
  destruct (steps_requests rt cs w' HF) as (Hh' & new & Hs' & Hnew).
  destruct (step_sent rt c net' (steps rt cs w')) as (new1 & Hs1 & Hnew1).
  unfold issued_since. rewrite steps_snoc, Hs1, Hs', <-app_assoc, drop_app_length.
  apply Forall_app. split.
  - eapply Forall_impl; [exact Hnew|]. intros x Hx. by rewrite Hx.
  - eapply Forall_impl; [exact Hnew1|]. intros x [_ Hx]. by rewrite Hx, Hh'.
Qed.

(** The request and the response of a call are determined by it. *)
Lemma exchange_unique c net w rq resp rq' resp' :
  exchange rt c net w rq resp -> exchange rt c net w rq' resp' ->
  rq' = rq ∧ resp' = resp.
Proof.
  intros [Hs Ho] [Hs' Ho']. unfold issued in *. rewrite Hs in Hs'.
  apply sent_one_call in Hs'. simplify_eq. split; [done|]. congruence.
Qed.

(** C5. Unless the response to [authenticate] has status 200 and a body
    that is an object with a ['token'] entry, the method returns [None]
    and the instance, its header set included, is as before.  So it is for
    a 200 whose body is an object without ['token'], for a status other
    than 200 (with or without ['error'] in the body), for a body that does
    not parse, and for a call of [requests] that raises. *)
Theorem authenticate_failure_keeps_headers u p net w :
  let out := authenticate rt u p net w in
  let failed := out.1 = inr PyNone ∧ self out.2 = self w ∧
                headers (self out.2) = headers (self w) in
  (¬ (∃ rq resp d t,
        exchange rt (Authenticate u p) net w rq resp ∧ status_code resp = 200 ∧
        json resp = inr (PyDict d) ∧ d !! "token" = Some t) -> failed) ∧
  (∀ rq resp d,
     exchange rt (Authenticate u p) net w rq resp -> status_code resp = 200 ->
     json resp = inr (PyDict d) -> d !! "token" = None -> failed) ∧
  (∀ rq resp,
     exchange rt (Authenticate u p) net w rq resp -> status_code resp ≠ 200 ->
     failed) ∧
  (∀ rq resp e,
     exchange rt (Authenticate u p) net w rq resp -> json resp = inl e ->
     failed) ∧
  (∀ rq e,
     issued rt (Authenticate u p) net w rq -> outcome (net rq) = inl e ->
     failed).
Proof.
  intros out failed.
  assert (Hgen : ¬ (∃ rq resp d t,
            exchange rt (Authenticate u p) net w rq resp ∧ status_code resp = 200 ∧
            json resp = inr (PyDict d) ∧ d !! "token" = Some t) -> failed).
  { intros Hno.
    destruct (authenticate_failure u p net w)
      as [(rq & resp & d & t & Hs & Ho & H200 & Hj & Ht) | [Hr Hw]].
    - destruct Hno. exists rq, resp, d, t. split; [split|]; auto.
    - unfold failed, out. by rewrite Hw. }
  split; [exact Hgen|]. split; [|split; [|split]].
  - intros rq resp d Hx H200 Hj Ht. apply Hgen.
    intros (rq' & resp' & d' & t' & Hx' & _ & Hj' & Ht').
    destruct (exchange_unique _ _ _ _ _ _ _ Hx Hx') as [_ ->]. congruence.
  - intros rq resp Hx Hne. apply Hgen.
    intros (rq' & resp' & d' & t' & Hx' & H200 & _).
    destruct (exchange_unique _ _ _ _ _ _ _ Hx Hx') as [_ ->]. congruence.
  - intros rq resp e Hx Hj. apply Hgen.
    intros (rq' & resp' & d' & t' & Hx' & _ & Hj' & _).
    destruct (exchange_unique _ _ _ _ _ _ _ Hx Hx') as [_ ->]. congruence.
  - intros rq e Hs Ho. apply Hgen.
    intros (rq' & resp' & d' & t' & [Hs' Ho'] & _).
    unfold issued in *. rewrite Hs in Hs'. apply sent_one_call in Hs'.
    simplify_eq. congruence.
Qed.

End Authenticate.

(** ** get_client_context *)

Section ClientContext.

Context (rt : Runtime).
Implicit Types (net : Net) (w : World) (cs : list (Call * Net)).

Lemma index_seq_head {A} (x : A) (l : list A) : index_seq (x :: l) 0 = Some x.
Proof. reflexivity. Qed.

(** On a 200 whose body is a dict. *)
Lemma get_client_context_dict net w :
  wp (get_client_context rt) net w (fun r w' =>
    ∀ rq resp d,
      sent w' = sent w ++ [(Local (length (locals w)), rq)] ->
      outcome (net rq) = inr resp -> status_code resp = 200 ->
      json resp = inr (PyDict d) ->
      (truthy (usinas_of d) = false -> r = inr (PyDict d) ∧ self w' = self w) ∧
      (∀ e rest, usinas_of d = PyList (PyDict e :: rest) ->
         r = inr (PyDict d) ∧
         usina_id (self w') = default PyNone (e !! "id") ∧
         usina_uuid (self w') = default PyNone (e !! "uuid"))).
Proof.
  unfold get_client_context; wp_run.
  all: intros rq' resp d' Hs Ho H200 Hj; sent_inv Hs; bools; merge; try done.
  all: unfold usinas_of; split; [intros Hf | intros e' rest' Hu]; try congruence.
  all: try done.
  all: rewrite Hu in *; simplify_eq.
  all: rewrite index_seq_head in *; simplify_eq; done.
Qed.

(** Whatever the network does, the call keeps both identifiers or takes
    both from entry 0 of the plant list of a 200 response. *)
Lemma get_client_context_plant_ids net w :
  wp (get_client_context rt) net w (fun r w' =>
    (usina_id (self w') = usina_id (self w) ∧
     usina_uuid (self w') = usina_uuid (self w)) ∨
    ∃ rq resp d e rest,
      sent w' = sent w ++ [(Local (length (locals w)), rq)] ∧
      outcome (net rq) = inr resp ∧ status_code resp = 200 ∧
      json resp = inr (PyDict d) ∧
      d !! "usinas" = Some (PyList (PyDict e :: rest)) ∧
      usina_id (self w') = default PyNone (e !! "id") ∧
      usina_uuid (self w') = default PyNone (e !! "uuid")).
Proof.
  unfold get_client_context; wp_run.
  all: try (left; split; reflexivity).
  all: right; bools.
  all: destruct l as [|x l]; simplify_eq.
  all: rewrite index_seq_head in *; simplify_eq.
  assert (Hd : d !! "usinas" = Some (PyList (PyDict d0 :: l))).
  { destruct (d !! "usinas") as [v|]; simpl in Heqv1; by simplify_eq. }
  exists rq, r, d, d0, l. simpl. by repeat split.
Qed.


(** One call either keeps both plant identifiers or is a
    [get_client_context] that takes both from entry 0 of the plant list of
    its 200 response. *)
Lemma step_plant_ids_cases c net w :
  (usina_id (self (step rt w (c, net))) = usina_id (self w) ∧
   usina_uuid (self (step rt w (c, net))) = usina_uuid (self w)) ∨
  (c = GetClientContext ∧
   ∃ rq resp d e rest,
     exchange rt GetClientContext net w rq resp ∧ status_code resp = 200 ∧
     json resp = inr (PyDict d) ∧
     d !! "usinas" = Some (PyList (PyDict e :: rest)) ∧
     usina_id (self (step rt w (c, net))) = default PyNone (e !! "id") ∧
     usina_uuid (self (step rt w (c, net))) = default PyNone (e !! "uuid")).
Proof.
  destruct (is_get_client_context c) eqn:Hc.
  - destruct c; try discriminate.
    destruct (get_client_context_plant_ids net w)
      as [H | (rq & resp & d & e & rest & Hs & Ho & H200 & Hj & Hd & Hid & Huuid)].
    + by left.
    + right. split; [done|]. exists rq, resp, d, e, rest.
      split; [by split|]. tauto.
  - left. by apply step_plant_ids.
Qed.

Lemma plant_ids_provenance cs :
  (usina_id (self (steps rt cs fresh)) = PyNone ∧
   usina_uuid (self (steps rt cs fresh)) = PyNone) ∨
  from_first_plant rt cs (steps rt cs fresh).
Proof.
  induction cs as [|[c net] cs IH] using rev_ind.
  - by left.
  - rewrite steps_snoc.
    destruct (step_plant_ids_cases c net (steps rt cs fresh))
      as [[Hid Huuid] | (-> & rq & resp & d & e & rest & Hx & H200 & Hj & Hd & Hid & Huuid)].
    + destruct IH as [[Hi Hu] | (cs1 & n & cs2 & rq & resp & d & e & rest & -> & H)].
      * left. split; congruence.
      * right. exists cs1, n, (cs2 ++ [(c, net)]), rq, resp, d, e, rest.
        rewrite <-app_assoc. split; [done|].
        destruct H as (Hx & H200 & Hj & Hd & Hi & Hu).
        rewrite Hid, Huuid. tauto.
    + right. exists cs, net, [], rq, resp, d, e, rest. tauto.
Qed.

(** C6. After any calls on a new instance, [usina_id] and [usina_uuid]
    are both unset, or both were assigned together by a
    [get_client_context] among those calls, from entry 0 of the plant list
    of its 200 response (an entry without ['id'] or ['uuid'] assigns [None]
    to that identifier); and a call of any other method changes neither. *)
Theorem plant_identifiers_set_together cs c net w :
  ((usina_id (self (steps rt cs fresh)) = PyNone ∧
    usina_uuid (self (steps rt cs fresh)) = PyNone) ∨
   from_first_plant rt cs (steps rt cs fresh)) ∧
  (is_get_client_context c = false ->
   usina_id (self (run rt c net w).2) = usina_id (self w) ∧
   usina_uuid (self (run rt c net w).2) = usina_uuid (self w)).
Proof.
  split.
  - apply plant_ids_provenance.
  - intros Hc. by apply (step_plant_ids rt c net w).
Qed.

End ClientContext.

(** ** The guards on the plant identifiers *)

Section Preconditions.

Context (rt : Runtime).
Implicit Types (net : Net) (w : World).

Lemma local_failure_intro msg (m : M value) net w :
  m net w = (inr PyNone, printed msg w) -> local_failure msg (m net w) w.
Proof. intros ->. by repeat split. Qed.

Lemma get_last_status_falsy net w :
  truthy (usina_id (self w)) = false ->
  local_failure no_usina_id (get_last_status rt net w) w.
Proof.
  intros H. apply local_failure_intro.
  unfold get_last_status, mbind, M_bind, get_self. by rewrite H.
Qed.

Lemma get_generation_day_falsy date up net w :
  truthy (usina_id (self w)) = false ->
  local_failure no_usina_id (get_generation_day rt date up net w) w.
Proof.
  intros H. apply local_failure_intro.
  unfold get_generation_day, mbind, M_bind, get_self. by rewrite H.
Qed.

Lemma get_generation_period_falsy sd ed p um up net w :
  truthy (usina_id (self w)) = false ->
  local_failure no_usina_id (get_generation_period rt sd ed p um up net w) w.
Proof.
  intros H. apply local_failure_intro.
  unfold get_generation_period, mbind, M_bind, get_self. by rewrite H.
Qed.

Lemma get_last_report_falsy net w :
  truthy (usina_uuid (self w)) = false ->
  local_failure no_usina_uuid (get_last_report rt net w) w.
Proof.
  intros H. apply local_failure_intro.
  unfold get_last_report, mbind, M_bind, get_self. by rewrite H.
Qed.

(** C4. While [usina_id] is unset, [get_last_status],
    [get_generation_day] and [get_generation_period] only print the
    precondition message and return [None]: no call of [requests] is made
    and nothing else changes; likewise [get_last_report] while
    [usina_uuid] is unset.  In particular, when [usina_id] is unset and
    [get_client_context] succeeds with an empty (or absent) plant list,
    the payload is returned and a following [get_last_status] fails in
    this local way. *)
Theorem unset_plant_id_fails_locally net w :
  (usina_id (self w) = PyNone ->
   local_failure no_usina_id (get_last_status rt net w) w ∧
   (∀ date up,
      local_failure no_usina_id (get_generation_day rt date up net w) w) ∧
   (∀ sd ed p um up,
      local_failure no_usina_id (get_generation_period rt sd ed p um up net w) w)) ∧
  (usina_uuid (self w) = PyNone ->
   local_failure no_usina_uuid (get_last_report rt net w) w) ∧
  (∀ net0 rq resp d,
     usina_id (self w) = PyNone ->
     exchange rt GetClientContext net0 w rq resp ->
     status_code resp = 200 ->
     json resp = inr (PyDict d) ->
     usinas_of d = PyList [] ->
     let w' := (get_client_context rt net0 w).2 in
     (get_client_context rt net0 w).1 = inr (PyDict d) ∧
     usina_id (self w') = PyNone ∧
     local_failure no_usina_id (get_last_status rt net w') w').
Proof.
  split; [|split].
  - intros H. split; [|split]; intros.
    + apply get_last_status_falsy. by rewrite H.
    + apply get_generation_day_falsy. by rewrite H.
    + apply get_generation_period_falsy. by rewrite H.
  - intros H. apply get_last_report_falsy. by rewrite H.
  - intros net0 rq resp d Hid [Hs Ho] H200 Hj Hu w'.
    destruct (get_client_context_dict rt net0 w rq resp d Hs Ho H200 Hj) as [Hf _].
    destruct Hf as [Hr Hw]; [by rewrite Hu|]. fold w' in Hw.
    assert (Hid' : usina_id (self w') = PyNone) by (by rewrite Hw).
    split; [done|]. split; [done|].
    apply get_last_status_falsy. by rewrite Hid'.
Qed.

(** C10. The guards test the identifiers for truth, not for presence:
    with a false [usina_id] (the integer 0, say) [get_last_status],
    [get_generation_day] and [get_generation_period] fail locally exactly
    as with [None], and so does [get_last_report] with a false
    [usina_uuid] (the empty string, say).  Such a state arises from a
    successful [get_client_context] whose first plant has id 0 and uuid
    the empty string. *)
Theorem false_plant_id_fails_locally net w :
  (truthy (usina_id (self w)) = false ->
   local_failure no_usina_id (get_last_status rt net w) w ∧
   (∀ date up,
      local_failure no_usina_id (get_generation_day rt date up net w) w) ∧
   (∀ sd ed p um up,
      local_failure no_usina_id (get_generation_period rt sd ed p um up net w) w)) ∧
  (truthy (usina_uuid (self w)) = false ->
   local_failure no_usina_uuid (get_last_report rt net w) w) ∧
  (∀ net0 rq resp d e rest,
     exchange rt GetClientContext net0 w rq resp ->
     status_code resp = 200 ->
     json resp = inr (PyDict d) ->
     usinas_of d = PyList (PyDict e :: rest) ->
     e !! "id" = Some (PyInt 0) ->
     e !! "uuid" = Some (PyStr "") ->
     let w' := (get_client_context rt net0 w).2 in
     (get_client_context rt net0 w).1 = inr (PyDict d) ∧
     usina_id (self w') = PyInt 0 ∧ usina_uuid (self w') = PyStr "" ∧
     local_failure no_usina_id (get_last_status rt net w') w' ∧
     (∀ date up,
        local_failure no_usina_id (get_generation_day rt date up net w') w') ∧
     (∀ sd ed p um up,
        local_failure no_usina_id
          (get_generation_period rt sd ed p um up net w') w') ∧
     local_failure no_usina_uuid (get_last_report rt net w') w').
Proof.
  split; [|split].
  - intros H. split; [|split]; intros.
    + by apply get_last_status_falsy.
    + by apply get_generation_day_falsy.
    + by apply get_generation_period_falsy.
  - intros H. by apply get_last_report_falsy.
  - intros net0 rq resp d e rest [Hs Ho] H200 Hj Hu Hid Huuid w'.
    destruct (get_client_context_dict rt net0 w rq resp d Hs Ho H200 Hj) as [_ Hl].
    destruct (Hl e rest Hu) as (Hr & Hi & Hv). fold w' in Hi, Hv.
    rewrite Hid in Hi. rewrite Huuid in Hv. simpl in Hi, Hv.
    split; [done|]. split; [done|]. split; [done|].
    split; [|split; [|split]]; intros.
    + apply get_last_status_falsy. by rewrite Hi.
    + apply get_generation_day_falsy. by rewrite Hi.
    + apply get_generation_period_falsy. by rewrite Hi.
    + apply get_last_report_falsy. by rewrite Hv.
Qed.

End Preconditions.

(** ** Faults, results and requests of every method *)

Section Methods.

Context (rt : Runtime).
Implicit Types (net : Net) (w : World) (c : Call).








(** A call that is neither [authenticate] nor [get_client_context] leaves
    the whole instance as it was. *)
Lemma step_self c net w :
  is_authenticate c = false -> is_get_client_context c = false ->
  self (step rt w (c, net)) = self w.
Proof.
  intros Ha Hc.
  destruct (step_framed rt c net w) as (_ & _ & Hb & Hh & Hi).
  destruct (Hi Hc) as [Hid Huuid].
  destruct Hh as [Hh | [Hh _]]; [|congruence].
  destruct (self (step rt w (c, net))), (self w); simpl in *; congruence.
Qed.

(** So do any number of such calls. *)
Lemma steps_self (cs : list (Call * Net)) w :
  Forall (fun cn => is_authenticate cn.1 = false ∧
                    is_get_client_context cn.1 = false) cs ->
  self (steps rt cs w) = self w.
Proof.
  revert w. induction cs as [|[c net] cs IH]; intros w HF; [done|].
  apply Forall_cons in HF as [[Ha Hc] HF].
  change (steps rt ((c, net) :: cs) w) with (steps rt cs (step rt w (c, net))).
  rewrite (IH _ HF). by apply step_self.
Qed.

(** Had a method handed the session dict itself to [requests], the
    callee's writes would have reached the session headers. *)
Remark call_without_copy_leaks m u ps d j net w :
  headers (self (call m u SessionHeaders ps d j net w).2) =
  headers_after (net {| method := m; url := u; req_headers := headers (self w);
                        params := ps; data := d; json_arg := j |}).
Proof. reflexivity. Qed.

(** C9. Every method hands [requests] a fresh copy of the session headers,
    never the session dict, and the copy holds the session's entries; what
    the callee writes to it does not reach the session.  [base_url] never
    changes.  The session headers change only in [authenticate], and there
    only by the [Authorization] entry of a success; the plant identifiers
    change only in [get_client_context]; every other method leaves the
    whole instance as it was, whatever the response or fault.  Any number
    of calls of [mark_all_notifications_seen] in a row leave the instance
    as it was. *)
Theorem calls_leave_session_state c net w :
  let w' := (run rt c net w).2 in
  (sent w' = sent w ∨
   ∃ rq, sent w' = sent w ++ [(Local (length (locals w)), rq)] ∧
         req_headers rq = headers (self w)) ∧
  base_url (self w') = base_url (self w) ∧
  (is_authenticate c = false -> headers (self w') = headers (self w)) ∧
  (is_authenticate c = true ->
   headers (self w') = headers (self w) ∨
   ∃ t, headers (self w') =
        <["Authorization" := "Bearer " +:+ str rt t]> (headers (self w))) ∧
  (is_get_client_context c = false ->
   usina_id (self w') = usina_id (self w) ∧
   usina_uuid (self w') = usina_uuid (self w)) ∧
  (is_authenticate c = false -> is_get_client_context c = false ->
   self w' = self w) ∧
  (∀ nets : list Net,
     self (steps rt (map (fun n => (MarkAllNotificationsSeen, n)) nets) w) = self w).
Proof.
  intros w'.
  destruct (run_framed rt c net w) as (_ & Hs & Hb & Hh & Hi). fold w' in Hs, Hb, Hh, Hi.
  split; [done|]. split; [done|]. split; [|split; [|split; [done|split]]].
  - intros Ha. by apply (step_headers rt c net w).
  - intros _. destruct Hh as [Hh | (_ & _ & t & Hh)]; [by left | right; by exists t].
  - intros Ha Hc. by apply (step_self c net w).
  - intros nets. apply steps_self. apply Forall_forall.
    intros cn Hcn. apply list_elem_of_In, in_map_iff in Hcn as (n & <- & _). done.
Qed.

End Methods.

(** ** The theorems at concrete inputs *)

(** [authenticate("u", "p")] answered [{"token": "abc"}] at 200. *)
Lemma authenticate_stores_bearer_token_witness :
  let net := answering 200 (PyDict token_abc) in
  let rq := request_of_fresh POST "/cliente/authenticate" None (Some "{}") None in
  let w' := (authenticate rt0 "u" "p" net fresh).2 in
  exchange rt0 (Authenticate "u" "p") net fresh rq (response_of 200 (PyDict token_abc)) ∧
  (authenticate rt0 "u" "p" net fresh).1 = inr (PyBool true) ∧
  headers (self w') !! "Authorization" = Some "Bearer abc" ∧
  Forall (fun x => req_headers x.2 !! "Authorization" = Some "Bearer abc")
    (issued_since w'
       (steps rt0 ([(GetClientContext, net); (Authenticate "u" "x", answering 401 PyNone);
                    (GetEconomized, net)]
                   ++ [(Authenticate "u" "p", net)]) w')).
Proof.
  intros net rq w'.
  assert (Hx : exchange rt0 (Authenticate "u" "p") net fresh rq
                 (response_of 200 (PyDict token_abc))).
  { split; reflexivity. }
  split; [exact Hx|].
  destruct (authenticate_stores_bearer_token rt0 "u" "p" net fresh rq
              (response_of 200 (PyDict token_abc)) token_abc (PyStr "abc")
              Hx eq_refl eq_refl eq_refl) as (Hr & _ & Hb & Hall).
  split; [exact Hr|]. split; [exact Hb|].
  apply Hall. reflexivity.
Defined.




(** A new instance has no plant id. *)
Lemma unset_plant_id_fails_locally_witness :
  usina_id (self fresh) = PyNone ∧
  local_failure no_usina_id
    (get_last_status rt0 (answering 200 PyNone) fresh) fresh.
Proof.
  split; [reflexivity|].
  destruct (unset_plant_id_fails_locally rt0 (answering 200 PyNone) fresh)
    as (H & _).
  destruct (H eq_refl) as (Hs & _). exact Hs.
Defined.

(** [authenticate] answered [{"error": "bad credentials"}] at 401. *)
Lemma authenticate_failure_keeps_headers_witness :
  let body := PyDict {[ "error" := PyStr "bad credentials" ]} in
  let net := answering 401 body in
  let rq := request_of_fresh POST "/cliente/authenticate" None (Some "{}") None in
  exchange rt0 (Authenticate "u" "p") net fresh rq (response_of 401 body) ∧
  status_code (response_of 401 body) ≠ 200 ∧
  (authenticate rt0 "u" "p" net fresh).1 = inr PyNone ∧
  headers (self (authenticate rt0 "u" "p" net fresh).2) = headers (self fresh).
Proof.
  intros body net rq.
  assert (Hx : exchange rt0 (Authenticate "u" "p") net fresh rq (response_of 401 body)).
  { split; reflexivity. }
  assert (Hne : status_code (response_of 401 body) ≠ 200) by (simpl; lia).
  split; [exact Hx|]. split; [exact Hne|].
  destruct (authenticate_failure_keeps_headers rt0 "u" "p" net fresh)
    as (_ & _ & H & _).
  destruct (H rq (response_of 401 body) Hx Hne) as (Hr & _ & Hh).
  split; [exact Hr | exact Hh].
Defined.

(** [get_economized] is not [get_client_context]. *)
Lemma plant_identifiers_set_together_witness :
  let w := with_plants [PyDict (plant (PyInt 7) (PyStr "u-1"))] in
  let net := answering 200 PyNone in
  is_get_client_context GetEconomized = false ∧
  usina_id (self (run rt0 GetEconomized net w).2) = usina_id (self w) ∧
  usina_uuid (self (run rt0 GetEconomized net w).2) = usina_uuid (self w).
Proof.
  intros w net. split; [reflexivity|].
  destruct (plant_identifiers_set_together rt0 [] GetEconomized net w) as [_ H].
  exact (H eq_refl).
Defined.




(** [mark_all_notifications_seen] on a network that writes to the dict
    it is handed. *)
Lemma calls_leave_session_state_witness :
  let net := answering 200 PyNone in
  is_authenticate MarkAllNotificationsSeen = false ∧
  headers (self (run rt0 MarkAllNotificationsSeen net fresh).2) =
  headers (self fresh).
Proof.
  intros net. split; [reflexivity|].
  destruct (calls_leave_session_state rt0 MarkAllNotificationsSeen net fresh)
    as (_ & _ & H & _).
  exact (H eq_refl).
Defined.

(** A plant with id 0. *)
Lemma false_plant_id_fails_locally_witness :
  let w := with_plants [PyDict (plant (PyInt 0) (PyStr ""))] in
  truthy (usina_id (self w)) = false ∧
  local_failure no_usina_id (get_last_status rt0 (answering 200 PyNone) w) w.
Proof.
  intros w.
  assert (Hf : truthy (usina_id (self w)) = false) by reflexivity.
  split; [exact Hf|].
  destruct (false_plant_id_fails_locally rt0 (answering 200 PyNone) w) as (H & _).
  destruct (H Hf) as (Hs & _). exact Hs.
Defined.

(** ** Scenarios *)

(** A 200 whose body is not JSON: [response.json()] raises and the method
    returns [None]; [mark_all_notifications_seen] never parses the body and
    returns [True]. *)
Example garbled_body :
  (get_economized rt0 (garbled 200) fresh).1 = inr PyNone ∧
  (authenticate rt0 "u" "p" (garbled 200) fresh).1 = inr PyNone ∧
  (mark_all_notifications_seen rt0 (garbled 200) fresh).1 = inr (PyBool true).
Proof. repeat split; reflexivity. Qed.

(** After [get_client_context] has received [{usinas: [{id: 7, uuid:
    "u-1"}]}], [get_last_status] asks with [id=7]. *)
Example get_last_status_after_context :
  let w := with_plants [PyDict (plant (PyInt 7) (PyStr "u-1"))] in
  usina_id (self w) = PyInt 7 ∧ usina_uuid (self w) = PyStr "u-1" ∧
  issued_since w (get_last_status rt0 (answering 200 PyNone) w).2 =
    [(Local 1,
      {| method := GET; url := "https://app.solarz.com.br/shareable/currently/usina";
         req_headers := headers init; params := Some [("id", PyInt 7)];
         data := None; json_arg := None |})].
Proof. repeat split; reflexivity. Qed.

(** An entry 0 without ['id'] sets [usina_uuid] and assigns [None] to
    [usina_id]. *)
Example plant_without_id :
  let w := with_plants [PyDict {[ "uuid" := PyStr "u-1" ]}] in
  usina_id (self w) = PyNone ∧ usina_uuid (self w) = PyStr "u-1".
Proof. split; reflexivity. Qed.

(** An empty plant list after a non-empty one keeps the identifiers. *)
Example empty_plant_list_keeps_identifiers :
  let w := with_plants [PyDict (plant (PyInt 7) (PyStr "u-1"))] in
  let w' := (get_client_context rt0 (answering 200 (PyDict (context_of []))) w).2 in
  usina_id (self w') = PyInt 7 ∧ usina_uuid (self w') = PyStr "u-1".
Proof. split; reflexivity. Qed.

(** * Further properties

    More of the behaviour of the methods: the requests they make, what
    they return and print, and what a sequence of calls keeps. *)

(** ** The requests of the methods *)

(** Prove that a method, run from its definition, makes the stated call. *)
Ltac asks :=
  unfold issued; simpl run;
  lazymatch goal with
  | |- sent (?m ?net ?w).2 = ?l =>
      change (wp m net w (fun _ w' => sent w' = l))
  end;
  unfold_methods; wp_run; try reflexivity.

Section Requests.

Context (rt : Runtime).
Implicit Types (net : Net) (w : World).


(** The requests of [get_last_status] and [get_last_report] once their
    guard is passed. *)
Lemma get_last_status_asks net w :
  truthy (usina_id (self w)) = true ->
  issued rt GetLastStatus net w
    (get_request w "/shareable/currently/usina" (Some [("id", usina_id (self w))])).
Proof. intros H. asks. all: rewrite H in *; discriminate. Qed.

Lemma get_last_report_asks net w :
  truthy (usina_uuid (self w)) = true ->
  issued rt GetLastReport net w
    (get_request w
       ("/api-sz/app/cliente/plant/" +:+ str rt (usina_uuid (self w))
        +:+ "/lastReport") None).
Proof. intros H. asks. all: rewrite H in *; discriminate. Qed.

(** X2. The guarded methods make their one call exactly when the
    identifier is true, and the call carries it: [get_last_status] as the
    query parameter [id], the two generation methods as [usinaId] beside
    the dates and flags as given, [get_last_report] as [str(usina_uuid)]
    inside the path. *)
Theorem guarded_methods_ask_with_the_identifier net w :
  (truthy (usina_id (self w)) = true ->
   issued rt GetLastStatus net w
     (get_request w "/shareable/currently/usina"
        (Some [("id", usina_id (self w))])) ∧
   (∀ date up,
      issued rt (GetGenerationDay date up) net w
        (get_request w "/api-sz/generation/day"
           (Some [("usinaId", usina_id (self w)); ("day", PyStr date);
                  ("unitePortals", PyStr (lower (str_bool up)))]))) ∧
   (∀ sd ed p um up,
      issued rt (GetGenerationPeriod sd ed p um up) net w
        (get_request w "/api-sz/generation/period"
           (Some [("usinaId", usina_id (self w)); ("start", PyStr sd);
                  ("end", PyStr ed);
                  ("uniteMonths", PyStr (lower (str_bool um)));
                  ("unitePortals", PyStr (lower (str_bool up)));
                  ("period", PyStr p)])))) ∧
  (truthy (usina_uuid (self w)) = true ->
   issued rt GetLastReport net w
     (get_request w
        ("/api-sz/app/cliente/plant/" +:+ str rt (usina_uuid (self w))
         +:+ "/lastReport") None)) ∧
  (truthy (usina_id (self w)) = false ->
   sent (get_last_status rt net w).2 = sent w ∧
   (∀ date up, sent (get_generation_day rt date up net w).2 = sent w) ∧
   (∀ sd ed p um up,
      sent (get_generation_period rt sd ed p um up net w).2 = sent w)) ∧
  (truthy (usina_uuid (self w)) = false ->
   sent (get_last_report rt net w).2 = sent w).
Proof.
  split; [|split; [|split]].
  - intros H. split; [by apply get_last_status_asks|].
    split; intros; asks.
    all: rewrite H in *; discriminate.
  - apply get_last_report_asks.
  - intros H. repeat split; intros.
    + by destruct (get_last_status_falsy rt net w H) as (_ & _ & ?).
    + by destruct (get_generation_day_falsy rt date up net w H) as (_ & _ & ?).
    + by destruct (get_generation_period_falsy rt sd ed p um up net w H) as (_ & _ & ?).
  - intros H. by destruct (get_last_report_falsy rt net w H) as (_ & _ & ?).
Qed.

(** X3. [authenticate] sends the credentials in the body only: a POST of
    [/cliente/authenticate] whose [data] is [json.dumps] of the dict with
    [username] and [password], with no query parameters, made with a copy
    of the session headers.  If [json.dumps] raises, no call is made, the
    method returns [None] and the instance stays as it was. *)
Theorem authenticate_sends_credentials_in_body u p net w :
  (∀ body, json_dumps rt (credentials u p) = inr body ->
           issued rt (Authenticate u p) net w
             (post_request w "/cliente/authenticate" (Some body) None)) ∧
  (∀ e, json_dumps rt (credentials u p) = inl e ->
        (authenticate rt u p net w).1 = inr PyNone ∧
        sent (authenticate rt u p net w).2 = sent w ∧
        self (authenticate rt u p net w).2 = self w).
Proof.
  unfold credentials. split.
  - intros body H. asks. all: simplify_eq; reflexivity.
  - intros e H.
    change (wp (authenticate rt u p) net w (fun r w' =>
              r = inr PyNone ∧ sent w' = sent w ∧ self w' = self w)).
    unfold authenticate; wp_run; simplify_eq.
    all: by repeat split.
Qed.

(** X4. [mark_all_notifications_seen] always makes its one call, a POST of
    [/cliente/notifications/seenAll] with the JSON body [{}], and it
    returns [True] exactly when the response has status 200: the body of
    the response is never read, so it may be anything. *)
Theorem mark_all_notifications_seen_succeeds_on_200 net w :
  let rq := post_request w "/cliente/notifications/seenAll" None
              (Some (PyDict ∅)) in
  issued rt MarkAllNotificationsSeen net w rq ∧
  (∀ resp, outcome (net rq) = inr resp ->
           ((mark_all_notifications_seen rt net w).1 = inr (PyBool true)
            <-> status_code resp = 200)).
Proof.
  intros rq. split; [asks|].
  intros resp Ho.
  change (wp (mark_all_notifications_seen rt) net w (fun r _ =>
            r = inr (PyBool true) <-> status_code resp = 200)).
  unfold mark_all_notifications_seen; wp_run.
  all: repeat match goal with x := _ |- _ => subst x end.
  all: unfold post_request in *; bools; merge; split; intros; try done; try congruence.
Qed.

(** X5. The two methods documented as returning [True] or [False] return
    [True] or [None]: never [False]. *)
Theorem success_flag_is_true_or_none u p net w :
  ((authenticate rt u p net w).1 = inr (PyBool true) ∨
   (authenticate rt u p net w).1 = inr PyNone) ∧
  ((mark_all_notifications_seen rt net w).1 = inr (PyBool true) ∨
   (mark_all_notifications_seen rt net w).1 = inr PyNone).
Proof.
  split.
  - change (wp (authenticate rt u p) net w (fun r _ =>
              r = inr (PyBool true) ∨ r = inr PyNone)).
    unfold authenticate; wp_run; auto.
  - change (wp (mark_all_notifications_seen rt) net w (fun r _ =>
              r = inr (PyBool true) ∨ r = inr PyNone)).
    unfold mark_all_notifications_seen; wp_run; auto.
Qed.

(** X6. Two pages of notifications never share a URL. *)
Theorem notification_pages_have_their_own_url page page' net net' w rq rq' :
  issued rt (GetNotifications page) net w rq ->
  issued rt (GetNotifications page') net' w rq' ->
  page ≠ page' ->
  url rq ≠ url rq'.
Proof.
  intros Hs Hs' Hne Hu.
  assert (H : issued rt (GetNotifications page) net w
            (get_request w ("/cliente/notifications/page/" +:+ pretty page) None))
    by asks.
  assert (H' : issued rt (GetNotifications page') net' w
            (get_request w ("/cliente/notifications/page/" +:+ pretty page') None))
    by asks.
  unfold issued in *. rewrite Hs in H. rewrite Hs' in H'.
  apply sent_one_call in H, H'. simplify_eq.
  simpl in Hu. apply String.app_inj, String.app_inj in Hu.
  by apply pretty_Z_inj in Hu.
Qed.

(** X7. The plant methods use the plant that [get_client_context]
    fetched: after a 200 whose plant list starts with an object,
    [get_last_status] asks for that object's ['id'] and [get_last_report]
    for its ['uuid'] (when these are true values), under the same
    [base_url] and with the same headers as before the fetch. *)
Theorem plant_methods_use_the_fetched_plant net0 net w rq resp d e rest :
  exchange rt GetClientContext net0 w rq resp ->
  status_code resp = 200 ->
  json resp = inr (PyDict d) ->
  usinas_of d = PyList (PyDict e :: rest) ->
  let w' := (get_client_context rt net0 w).2 in
  let id := default PyNone (e !! "id") in
  let uuid := default PyNone (e !! "uuid") in
  (truthy id = true ->
   issued rt GetLastStatus net w'
     (get_request w' "/shareable/currently/usina" (Some [("id", id)]))) ∧
  (truthy uuid = true ->
   issued rt GetLastReport net w'
     (get_request w'
        ("/api-sz/app/cliente/plant/" +:+ str rt uuid +:+ "/lastReport") None)) ∧
  base_url (self w') = base_url (self w) ∧
  headers (self w') = headers (self w).
Proof.
  intros [Hs Ho] H200 Hj Hu w' id uuid.
  destruct (get_client_context_dict rt net0 w rq resp d Hs Ho H200 Hj) as [_ Hl].
  destruct (Hl e rest Hu) as (_ & Hid & Huuid). fold w' in Hid, Huuid.
  destruct (run_framed rt GetClientContext net0 w) as (_ & _ & Hb & [Hh | (? & _)] & _);
    [|discriminate].
  fold w' in Hb, Hh.
  split; [|split; [|by split]].
  - intros Ht. unfold id in *. rewrite <-Hid in *. by apply get_last_status_asks.
  - intros Ht. unfold uuid in *. rewrite <-Huuid in *. by apply get_last_report_asks.
Qed.

End Requests.

(** ** The state of the instance over time *)

Section Session.

Context (rt : Runtime).
Implicit Types (net : Net) (w : World) (cs : list (Call * Net)).


(** X9. A 200 whose parsed payload is not of the expected shape (not an
    object, or a true plant list that is not a list starting with an
    object) makes [get_client_context] return [None]. *)
Theorem unshaped_context_gives_none net w rq resp body :
  exchange rt GetClientContext net w rq resp ->
  status_code resp = 200 ->
  json resp = inr body ->
  ¬ context_shaped body ->
  (get_client_context rt net w).1 = inr PyNone.
Proof.
  intros [Hs Ho] H200 Hj Hno. revert Hs Ho H200 Hj Hno.
  change (wp (get_client_context rt) net w (fun r w' =>
    sent w' = sent w ++ [(Local (length (locals w)), rq)] ->
    outcome (net rq) = inr resp -> status_code resp = 200 ->
    json resp = inr body -> ¬ context_shaped body -> r = inr PyNone)).
  unfold get_client_context; wp_run.
  all: intros Hs Ho H200 Hj Hno; sent_inv Hs; bools; merge; try done.
  all: destruct Hno; eexists; split; [reflexivity|]; unfold usinas_of.
  - right. destruct l as [|x l]; simplify_eq.
    rewrite index_seq_head in *. simplify_eq. eauto.
  - by left.
Qed.

(** The URL of every request is [base_url] followed by a path. *)
Lemma run_url c net w :
  wp (run rt c) net w (fun _ w' =>
    ∀ rq, sent w' = sent w ++ [(Local (length (locals w)), rq)] ->
          ∃ path, url rq = base_url (self w) +:+ path).
Proof.
  destruct c; unfold_methods; wp_run.
  all: intros rq' Hs; sent_inv Hs; eexists; reflexivity.
Qed.

(** What one call adds to the log: nothing or one entry. *)
Lemma step_sent_one c net w :
  ∃ new, sent (step rt w (c, net)) = sent w ++ new ∧ (length new ≤ 1)%nat ∧
         Forall (fun x => ∃ path, url x.2 = base_url (self w) +:+ path) new.
Proof.
  destruct (step_framed rt c net w) as (_ & [H | (rq & H & Hrq)] & _).
  - exists []. rewrite app_nil_r. repeat split; [done | simpl; lia | constructor].
  - exists [(Local (length (locals w)), rq)]. repeat split; [done | simpl; lia |].
    repeat constructor. by apply (run_url c net w).
Qed.

Lemma step_base_url c net w :
  base_url (self (step rt w (c, net))) = base_url (self w).
Proof. by destruct (step_framed rt c net w) as (_ & _ & H & _). Qed.

Lemma steps_sent cs w :
  base_url (self (steps rt cs w)) = base_url (self w) ∧
  ∃ new, sent (steps rt cs w) = sent w ++ new ∧ (length new ≤ length cs)%nat ∧
         Forall (fun x => ∃ path, url x.2 = base_url (self w) +:+ path) new.
Proof.
  revert w. induction cs as [|[c net] cs IH]; intros w.
  - split; [done|]. exists []. rewrite app_nil_r. by repeat split.
  - change (steps rt ((c, net) :: cs) w) with (steps rt cs (step rt w (c, net))).
    destruct (IH (step rt w (c, net))) as (Hb & new & Hs & Hl & Hu).
    destruct (step_sent_one c net w) as (new1 & Hs1 & Hl1 & Hu1).
    rewrite step_base_url in Hb, Hu.
    split; [done|]. exists (new1 ++ new).
    rewrite Hs, Hs1, <-app_assoc, length_app. repeat split; [simpl; lia|].
    by apply Forall_app.
Qed.

(** X10. No retries: [n] calls, of any methods and with any outcomes, make
    at most [n] calls of [requests], and the log of calls only grows. *)
Theorem at_most_one_request_per_call cs w :
  sent (steps rt cs w) = sent w ++ issued_since w (steps rt cs w) ∧
  (length (issued_since w (steps rt cs w)) ≤ length cs)%nat.
Proof.
  destruct (steps_sent cs w) as (_ & new & Hs & Hl & _).
  unfold issued_since. by rewrite Hs, drop_app_length.
Qed.


(** The session headers are the three of [__init__], with or without an
    [Authorization] entry. *)
Lemma steps_headers cs :
  headers (self (steps rt cs fresh)) = headers init ∨
  ∃ t, headers (self (steps rt cs fresh)) =
       <["Authorization" := "Bearer " +:+ str rt t]> (headers init).
Proof.
  induction cs as [|[c net] cs IH] using rev_ind; [by left|].
  rewrite steps_snoc.
  destruct (step_framed rt c net (steps rt cs fresh))
    as (_ & _ & _ & [-> | (_ & _ & t & ->)] & _); [done|].
  right. exists t. destruct IH as [-> | [t0 ->]]; [done|].
  apply insert_insert_eq.
Qed.

Lemma init_header_names k : is_Some (headers init !! k) -> k ∈ header_names.
Proof.
  unfold header_names, init; simpl. intros [v Hv].
  apply lookup_insert_Some in Hv as [[<- _] | [_ Hv]]; [set_solver|].
  apply lookup_insert_Some in Hv as [[<- _] | [_ Hv]]; [set_solver|].
  apply lookup_singleton_Some in Hv as [<- _]. set_solver.
Qed.

(** X12. In every state a new instance can reach, the session headers
    are the three set by [__init__], unchanged, and at most one more, an
    [Authorization] entry of the form [Bearer ...]: no method removes or
    rewrites a default header or adds any other name. *)
Theorem session_headers_invariant cs :
  let h := headers (self (steps rt cs fresh)) in
  h !! "Accept" = Some "application/json" ∧
  h !! "Content-Type" = Some "application/json" ∧
  h !! "User-Agent" = headers init !! "User-Agent" ∧
  (h !! "Authorization" = None ∨
   ∃ t, h !! "Authorization" = Some ("Bearer " +:+ str rt t)) ∧
  (∀ k, is_Some (h !! k) -> k ∈ header_names).
Proof.
  intros h. unfold h.
  destruct (steps_headers cs) as [-> | [t ->]].
  - repeat split; try reflexivity; [by left | apply init_header_names].
  - repeat split; try by rewrite lookup_insert_ne.
    + right. exists t. apply lookup_insert_eq.
    + intros k [v Hv].
      apply lookup_insert_Some in Hv as [[<- _] | [_ Hv]].
      * unfold header_names. set_solver.
      * apply init_header_names. eauto.
Qed.

(** X13. The methods do not check that the client is logged in: until an
    [authenticate] succeeds, every request of a new instance carries
    exactly the three default headers, so no [Authorization]. *)
Theorem requests_before_login_carry_no_token cs :
  token_kept rt cs fresh = true ->
  Forall (fun x => req_headers x.2 = headers init ∧
                   req_headers x.2 !! "Authorization" = None)
    (sent (steps rt cs fresh)).
Proof.
  intros HF. destruct (steps_requests rt cs fresh HF) as (_ & new & -> & Hnew).
  simpl. eapply Forall_impl; [exact Hnew|].
  intros x Hx. simpl in Hx. by rewrite Hx.
Qed.

(** X14. A second successful [authenticate] replaces the token: its own
    request still carries the first one, and afterwards the session
    headers are those before the first login with the second token. *)
Theorem reauthentication_replaces_token
    u1 p1 net1 u2 p2 net2 w rq1 resp1 d1 t1 rq2 resp2 d2 t2 :
  exchange rt (Authenticate u1 p1) net1 w rq1 resp1 ->
  status_code resp1 = 200 -> json resp1 = inr (PyDict d1) ->
  d1 !! "token" = Some t1 ->
  let w1 := (authenticate rt u1 p1 net1 w).2 in
  exchange rt (Authenticate u2 p2) net2 w1 rq2 resp2 ->
  status_code resp2 = 200 -> json resp2 = inr (PyDict d2) ->
  d2 !! "token" = Some t2 ->
  req_headers rq2 !! "Authorization" = Some ("Bearer " +:+ str rt t1) ∧
  headers (self (authenticate rt u2 p2 net2 w1).2) =
    <["Authorization" := "Bearer " +:+ str rt t2]> (headers (self w)).
Proof.
  intros [Hs1 Ho1] H1 Hj1 Ht1 w1 [Hs2 Ho2] H2 Hj2 Ht2.
  destruct (authenticate_success rt u1 p1 net1 w rq1 resp1 d1 t1 Hs1 Ho1 H1 Hj1 Ht1)
    as [_ Hh1]. fold w1 in Hh1.
  destruct (authenticate_success rt u2 p2 net2 w1 rq2 resp2 d2 t2 Hs2 Ho2 H2 Hj2 Ht2)
    as [_ Hh2].
  split.
  - destruct (run_framed rt (Authenticate u2 p2) net2 w1) as (_ & [H | (rq & H & Hrq)] & _).
    + unfold issued in Hs2. simpl in Hs2, H. rewrite H in Hs2.
      destruct (sent_no_call _ _ Hs2).
    + unfold issued in Hs2. simpl in Hs2, H. rewrite H in Hs2.
      apply sent_one_call in Hs2. simplify_eq.
      rewrite Hrq, Hh1. apply lookup_insert_eq.
  - rewrite Hh2, Hh1. apply insert_insert_eq.
Qed.

End Session.

(** ** What the methods print *)

Section Reports.

Context (rt : Runtime).
Implicit Types (net : Net) (w : World) (c : Call).

Lemma stdout_printed s w : stdout (printed s w) = stdout w ++ [s].
Proof. done. Qed.

Lemma stdout_called h rq after w : stdout (called h rq after w) = stdout w.
Proof. by destruct h. Qed.

Lemma stdout_copied w : stdout (copied w) = stdout w.
Proof. done. Qed.

Lemma stdout_with_self f w : stdout (with_self f w) = stdout w.
Proof. done. Qed.

Lemma printed_since_app w w' l : stdout w' = stdout w ++ l -> printed_since w w' = l.
Proof. intros H. unfold printed_since. by rewrite H, drop_app_length. Qed.

(** Bring the output after a run to the form [stdout w ++ lines]. *)
Ltac stdout_norm :=
  repeat first [ rewrite stdout_printed | rewrite stdout_called
               | rewrite stdout_copied | rewrite stdout_with_self ];
  rewrite <-?app_assoc; cbn [app].


(** X16. A response with a status other than 200 is reported with its
    status code and raw body: the one line printed ends with
    [<status> - <text>].  For [authenticate] this is the case when the
    body is an object without ['error']. *)
Theorem non_200_is_reported c net w rq resp :
  exchange rt c net w rq resp ->
  status_code resp ≠ 200 ->
  (is_authenticate c = true ->
   ∃ d, json resp = inr (PyDict d) ∧ d !! "error" = None) ->
  ∃ prefix,
    printed_since w (run rt c net w).2 =
      [prefix +:+ pretty (status_code resp) +:+ " - " +:+ text resp].
Proof.
  intros [Hs Ho] Hne Hauth.
  assert (H : ∃ prefix, stdout (run rt c net w).2 =
            stdout w ++ [prefix +:+ pretty (status_code resp) +:+ " - " +:+ text resp]).
  { revert Hs Ho Hne Hauth.
    change (wp (run rt c) net w (fun _ w' =>
      sent w' = sent w ++ [(Local (length (locals w)), rq)] ->
      outcome (net rq) = inr resp -> status_code resp ≠ 200 ->
      (is_authenticate c = true ->
       ∃ d, json resp = inr (PyDict d) ∧ d !! "error" = None) ->
      ∃ prefix, stdout w' =
        stdout w ++ [prefix +:+ pretty (status_code resp) +:+ " - " +:+ text resp])).
    destruct c; unfold_methods; wp_run.
    all: intros Hs Ho Hne Hauth; sent_inv Hs; bools; merge; try done.
    all: try (destruct (Hauth eq_refl) as (d' & Hj & Herr); merge; try done).
    all: try (eexists; stdout_norm; reflexivity).
    all: destruct Heqb0; simplify_eq. }
  destruct H as [prefix H]. exists prefix. by apply printed_since_app.
Qed.


(** X18. A call of [requests] that raises is reported with the text of
    the exception, [str(e)], at the end of the one line printed; when the
    exception is not a [RequestException] the line is
    [Erro inesperado: ] followed by that text, for every method. *)
Theorem fault_is_reported c net w rq e :
  issued rt c net w rq ->
  outcome (net rq) = inl e ->
  ∃ prefix,
    printed_since w (run rt c net w).2 = [prefix +:+ str_exn rt e] ∧
    (is_request_exception e = false -> prefix = "Erro inesperado: ").
Proof.
  intros Hs Ho.
  assert (H : ∃ prefix, stdout (run rt c net w).2 = stdout w ++ [prefix +:+ str_exn rt e] ∧
            (is_request_exception e = false -> prefix = "Erro inesperado: ")).
  { revert Hs Ho.
    change (wp (run rt c) net w (fun _ w' =>
      sent w' = sent w ++ [(Local (length (locals w)), rq)] ->
      outcome (net rq) = inl e ->
      ∃ prefix, stdout w' = stdout w ++ [prefix +:+ str_exn rt e] ∧
        (is_request_exception e = false -> prefix = "Erro inesperado: "))).
    destruct c; unfold_methods; wp_run.
    all: intros Hs Ho; sent_inv Hs; merge; try done.
    all: eexists; stdout_norm; split; [reflexivity|]; intros; congruence. }
  destruct H as (prefix & H & Hp). exists prefix. split; [|done].
  by apply printed_since_app.
Qed.


End Reports.

(** ** Bodies of another shape *)

Section Shapes.

Context (rt : Runtime).
Implicit Types (net : Net) (w : World).

(** Two instances with the same attributes are the same. *)
Lemma SolarZAPI_eq (s1 s2 : SolarZAPI) :
  base_url s1 = base_url s2 -> usina_id s1 = usina_id s2 ->
  usina_uuid s1 = usina_uuid s2 -> headers s1 = headers s2 -> s1 = s2.
Proof. destruct s1, s2; simpl; congruence. Qed.

(** ['token' in l] for a list [l]. *)
Lemma token_in_list (k : string) (l : list value) :
  existsb (fun x => match x with PyStr s => String.eqb s k | _ => false end) l = true
  <-> PyStr k ∈ l.
Proof.
  rewrite existsb_exists. split.
  - intros (x & Hx & Hk). destruct x; try discriminate.
    apply String.eqb_eq in Hk as ->. by apply list_elem_of_In.
  - intros H. exists (PyStr k). split; [by apply list_elem_of_In|].
    apply String.eqb_refl.
Qed.

Lemma authenticate_on_list u p net w :
  wp (authenticate rt u p) net w (fun r w' =>
    ∀ rq resp l,
      sent w' = sent w ++ [(Local (length (locals w)), rq)] ->
      outcome (net rq) = inr resp -> status_code resp = 200 ->
      json resp = inr (PyList l) ->
      r = inr PyNone ∧
      stdout w' = stdout w ++
        [if existsb (fun x => match x with
                              | PyStr s => String.eqb s "token"
                              | _ => false
                              end) l
         then "Erro inesperado: " +:+ error_text rt (no_attribute (PyList l) "get")
         else "Token de autenticação não encontrado na resposta."]).
Proof.
  unfold authenticate; wp_run.
  all: intros rq' resp' l' Hs Ho H200 Hj; sent_inv Hs; bools; merge; try done.
  all: rewrite Heqb0; by split.
Qed.

Lemma authenticate_on_str u p net w :
  wp (authenticate rt u p) net w (fun r w' =>
    ∀ rq resp s,
      sent w' = sent w ++ [(Local (length (locals w)), rq)] ->
      outcome (net rq) = inr resp -> status_code resp = 200 ->
      json resp = inr (PyStr s) ->
      r = inr PyNone ∧
      stdout w' = stdout w ++
        [if substring_of "token" s
         then "Erro inesperado: " +:+ error_text rt (no_attribute (PyStr s) "get")
         else "Token de autenticação não encontrado na resposta."]).
Proof.
  unfold authenticate; wp_run.
  all: intros rq' resp' s' Hs Ho H200 Hj; sent_inv Hs; bools; merge; try done.
  all: rewrite Heqb0; by split.
Qed.

(** X20. On a 200 whose body is a JSON list or string, the test
    ['token' in response_data] is a membership or substring test.  When it
    fails [authenticate] reports the missing token; when it succeeds (the
    list has the element ["token"], the string contains [token]) the
    following [.get] raises and the method reports an unexpected error.
    Either way it returns [None]. *)
Theorem token_test_on_lists_and_strings u p net w rq resp :
  exchange rt (Authenticate u p) net w rq resp ->
  status_code resp = 200 ->
  let r := (authenticate rt u p net w).1 in
  let lines := printed_since w (authenticate rt u p net w).2 in
  let missing := "Token de autenticação não encontrado na resposta." in
  let unexpected v := "Erro inesperado: " +:+ error_text rt (no_attribute v "get") in
  (∀ l, json resp = inr (PyList l) ->
     r = inr PyNone ∧
     (PyStr "token" ∈ l -> lines = [unexpected (PyList l)]) ∧
     (PyStr "token" ∉ l -> lines = [missing])) ∧
  (∀ s, json resp = inr (PyStr s) ->
     r = inr PyNone ∧
     (substring_of "token" s = true -> lines = [unexpected (PyStr s)]) ∧
     (substring_of "token" s = false -> lines = [missing])).
Proof.
  intros [Hs Ho] H200 r lines missing unexpected. split.
  - intros l Hj.
    destruct (authenticate_on_list u p net w rq resp l Hs Ho H200 Hj) as [Hr Hl].
    split; [done|]. split; intros Hin; apply printed_since_app; rewrite Hl.
    + apply token_in_list in Hin. by rewrite Hin.
    + rewrite <-token_in_list in Hin. apply not_true_is_false in Hin. by rewrite Hin.
  - intros s Hj.
    destruct (authenticate_on_str u p net w rq resp s Hs Ho H200 Hj) as [Hr Hl].
    split; [done|]. split; intros Hin; apply printed_since_app; by rewrite Hl, Hin.
Qed.

(** X21. Fetching the context again is idempotent: when a second
    [get_client_context] receives a plant list with the same first plant,
    the instance after it is the instance after the first. *)
Theorem context_fetch_is_idempotent
    net1 net2 w rq1 resp1 d1 rest1 rq2 resp2 d2 rest2 e :
  exchange rt GetClientContext net1 w rq1 resp1 ->
  status_code resp1 = 200 -> json resp1 = inr (PyDict d1) ->
  usinas_of d1 = PyList (PyDict e :: rest1) ->
  let w1 := (get_client_context rt net1 w).2 in
  exchange rt GetClientContext net2 w1 rq2 resp2 ->
  status_code resp2 = 200 -> json resp2 = inr (PyDict d2) ->
  usinas_of d2 = PyList (PyDict e :: rest2) ->
  self (get_client_context rt net2 w1).2 = self w1.
Proof.
  intros [Hs1 Ho1] H1 Hj1 Hu1 w1 [Hs2 Ho2] H2 Hj2 Hu2.
  destruct (get_client_context_dict rt net1 w rq1 resp1 d1 Hs1 Ho1 H1 Hj1) as [_ Hl1].
  destruct (Hl1 e rest1 Hu1) as (_ & Hid1 & Huuid1). fold w1 in Hid1, Huuid1.
  destruct (get_client_context_dict rt net2 w1 rq2 resp2 d2 Hs2 Ho2 H2 Hj2) as [_ Hl2].
  destruct (Hl2 e rest2 Hu2) as (_ & Hid2 & Huuid2).
  destruct (run_framed rt GetClientContext net2 w1)
    as (_ & _ & Hb & [Hh | (? & _)] & _); [|discriminate].
  apply SolarZAPI_eq; [exact Hb | congruence | congruence | exact Hh].
Qed.

End Shapes.

(** ** The further properties at concrete inputs *)

(** Plant 7 is known: [get_last_status] asks for it. *)
Lemma guarded_methods_ask_with_the_identifier_witness :
  let w := with_plants [PyDict (plant (PyInt 7) (PyStr "u-1"))] in
  let net := answering 200 PyNone in
  truthy (usina_id (self w)) = true ∧
  issued rt0 GetLastStatus net w
    (get_request w "/shareable/currently/usina" (Some [("id", usina_id (self w))])).
Proof.
  intros w net.
  assert (Ht : truthy (usina_id (self w)) = true) by reflexivity.
  split; [exact Ht|].
  destruct (guarded_methods_ask_with_the_identifier rt0 net w) as (H & _).
  destruct (H Ht) as (Hs & _). exact Hs.
Defined.

(** The body [json.dumps] gives is what is sent. *)
Lemma authenticate_sends_credentials_in_body_witness :
  let net := answering 200 (PyDict token_abc) in
  json_dumps rt0 (credentials "u" "p") = inr "{}" ∧
  issued rt0 (Authenticate "u" "p") net fresh
    (post_request fresh "/cliente/authenticate" (Some "{}") None).
Proof.
  intros net. split; [reflexivity|].
  destruct (authenticate_sends_credentials_in_body rt0 "u" "p" net fresh) as (H & _).
  exact (H "{}" eq_refl).
Defined.

(** A 200 with a body that is not JSON. *)
Lemma mark_all_notifications_seen_succeeds_on_200_witness :
  let net := garbled 200 in
  let rq := post_request fresh "/cliente/notifications/seenAll" None
              (Some (PyDict ∅)) in
  status_code {| status_code := 200; text := "<html>";
                 json := inl (RequestException "Expecting value") |} = 200 ∧
  (mark_all_notifications_seen rt0 net fresh).1 = inr (PyBool true).
Proof.
  intros net rq. split; [reflexivity|].
  destruct (mark_all_notifications_seen_succeeds_on_200 rt0 net fresh) as (_ & H).
  destruct (H {| status_code := 200; text := "<html>";
                 json := inl (RequestException "Expecting value") |} eq_refl)
    as [_ H']. exact (H' eq_refl).
Defined.

(** Pages 0 and 1. *)
Lemma notification_pages_have_their_own_url_witness :
  let net := answering 200 PyNone in
  let rq0 := get_request fresh "/cliente/notifications/page/0" None in
  let rq1 := get_request fresh "/cliente/notifications/page/1" None in
  issued rt0 (GetNotifications 0) net fresh rq0 ∧
  issued rt0 (GetNotifications 1) net fresh rq1 ∧
  url rq0 ≠ url rq1.
Proof.
  intros net rq0 rq1.
  assert (H0 : issued rt0 (GetNotifications 0) net fresh rq0) by reflexivity.
  assert (H1 : issued rt0 (GetNotifications 1) net fresh rq1) by reflexivity.
  split; [exact H0|]. split; [exact H1|].
  apply (notification_pages_have_their_own_url rt0 0 1 net net fresh rq0 rq1 H0 H1).
  lia.
Defined.

(** The context answers plant 7 with uuid [u-1]. *)
Lemma plant_methods_use_the_fetched_plant_witness :
  let e := plant (PyInt 7) (PyStr "u-1") in
  let body := PyDict (context_of [PyDict e]) in
  let net0 := answering 200 body in
  let net := answering 200 PyNone in
  let w' := (get_client_context rt0 net0 fresh).2 in
  exchange rt0 GetClientContext net0 fresh
    (get_request fresh "/cliente/context" None) (response_of 200 body) ∧
  issued rt0 GetLastStatus net w'
    (get_request w' "/shareable/currently/usina" (Some [("id", PyInt 7)])) ∧
  issued rt0 GetLastReport net w'
    (get_request w' "/api-sz/app/cliente/plant/u-1/lastReport" None).
Proof.
  intros e body net0 net w'.
  assert (Hx : exchange rt0 GetClientContext net0 fresh
                 (get_request fresh "/cliente/context" None) (response_of 200 body)).
  { split; reflexivity. }
  split; [exact Hx|].
  destruct (plant_methods_use_the_fetched_plant rt0 net0 net fresh _ _
              (context_of [PyDict e]) e [] Hx eq_refl eq_refl eq_refl)
    as (Hs & Hr & _).
  split; [exact (Hs eq_refl) | exact (Hr eq_refl)].
Defined.


(** A payload that is a list. *)
Lemma unshaped_context_gives_none_witness :
  let body := PyList [] in
  let net := answering 200 body in
  exchange rt0 GetClientContext net fresh
    (get_request fresh "/cliente/context" None) (response_of 200 body) ∧
  (get_client_context rt0 net fresh).1 = inr PyNone.
Proof.
  intros body net.
  assert (Hx : exchange rt0 GetClientContext net fresh
                 (get_request fresh "/cliente/context" None) (response_of 200 body)).
  { split; reflexivity. }
  split; [exact Hx|].
  apply (unshaped_context_gives_none rt0 net fresh _ _ body Hx eq_refl eq_refl).
  intros (d & Hd & _). discriminate Hd.
Defined.

(** Calls before any login, one of them a login that fails. *)
Lemma requests_before_login_carry_no_token_witness :
  let cs := [(GetEconomized, answering 200 PyNone);
             (Authenticate "u" "p", answering 401 PyNone);
             (GetNotifications 0, answering 200 PyNone)] in
  token_kept rt0 cs fresh = true ∧
  Forall (fun x => req_headers x.2 = headers init ∧
                   req_headers x.2 !! "Authorization" = None)
    (sent (steps rt0 cs fresh)).
Proof.
  intros cs. split; [reflexivity|].
  exact (requests_before_login_carry_no_token rt0 cs eq_refl).
Defined.

(** Two logins, with tokens [abc] and [xyz]. *)
Lemma reauthentication_replaces_token_witness :
  let net1 := answering 200 (PyDict token_abc) in
  let net2 := answering 200 (PyDict {[ "token" := PyStr "xyz" ]}) in
  let w1 := (authenticate rt0 "u" "p" net1 fresh).2 in
  let rq2 := post_request w1 "/cliente/authenticate" (Some "{}") None in
  exchange rt0 (Authenticate "u" "p") net1 fresh
    (post_request fresh "/cliente/authenticate" (Some "{}") None)
    (response_of 200 (PyDict token_abc)) ∧
  exchange rt0 (Authenticate "u" "p") net2 w1 rq2
    (response_of 200 (PyDict {[ "token" := PyStr "xyz" ]})) ∧
  req_headers rq2 !! "Authorization" = Some "Bearer abc" ∧
  headers (self (authenticate rt0 "u" "p" net2 w1).2) =
    <["Authorization" := "Bearer xyz"]> (headers init).
Proof.
  intros net1 net2 w1 rq2.
  assert (Hx1 : exchange rt0 (Authenticate "u" "p") net1 fresh
                  (post_request fresh "/cliente/authenticate" (Some "{}") None)
                  (response_of 200 (PyDict token_abc))).
  { split; reflexivity. }
  assert (Hx2 : exchange rt0 (Authenticate "u" "p") net2 w1 rq2
                  (response_of 200 (PyDict {[ "token" := PyStr "xyz" ]}))).
  { split; reflexivity. }
  split; [exact Hx1|]. split; [exact Hx2|].
  exact (reauthentication_replaces_token rt0 "u" "p" net1 "u" "p" net2 fresh _ _
           token_abc (PyStr "abc") rq2 _ {[ "token" := PyStr "xyz" ]} (PyStr "xyz")
           Hx1 eq_refl eq_refl eq_refl Hx2 eq_refl eq_refl eq_refl).
Defined.

(** [get_economized] answered 500. *)
Lemma non_200_is_reported_witness :
  let net := answering 500 PyNone in
  exchange rt0 GetEconomized net fresh
    (get_request fresh "/api-sz/app/cliente/home/economizados" None)
    (response_of 500 PyNone) ∧
  ∃ prefix, printed_since fresh (run rt0 GetEconomized net fresh).2 =
              [prefix +:+ "500" +:+ " - " +:+ ""].
Proof.
  intros net.
  assert (Hx : exchange rt0 GetEconomized net fresh
                 (get_request fresh "/api-sz/app/cliente/home/economizados" None)
                 (response_of 500 PyNone)).
  { split; reflexivity. }
  split; [exact Hx|].
  apply (non_200_is_reported rt0 GetEconomized net fresh _ _ Hx).
  - simpl. lia.
  - intros H. discriminate H.
Defined.


(** [get_economized] on a network that raises something else than a
    [RequestException]. *)
Lemma fault_is_reported_witness :
  let e := OtherException "boom" in
  let net := failing e in
  let rq := get_request fresh "/api-sz/app/cliente/home/economizados" None in
  issued rt0 GetEconomized net fresh rq ∧
  outcome (net rq) = inl e ∧
  ∃ prefix,
    printed_since fresh (run rt0 GetEconomized net fresh).2 = [prefix +:+ "boom"] ∧
    (is_request_exception e = false -> prefix = "Erro inesperado: ").
Proof.
  intros e net rq.
  assert (Hs : issued rt0 GetEconomized net fresh rq) by reflexivity.
  split; [exact Hs|]. split; [reflexivity|].
  exact (fault_is_reported rt0 GetEconomized net fresh rq e Hs eq_refl).
Defined.


(** The body [["token"]]. *)
Lemma token_test_on_lists_and_strings_witness :
  let body := PyList [PyStr "token"] in
  let net := answering 200 body in
  exchange rt0 (Authenticate "u" "p") net fresh
    (post_request fresh "/cliente/authenticate" (Some "{}") None)
    (response_of 200 body) ∧
  (authenticate rt0 "u" "p" net fresh).1 = inr PyNone ∧
  printed_since fresh (authenticate rt0 "u" "p" net fresh).2 =
    ["Erro inesperado: error"].
Proof.
  intros body net.
  assert (Hx : exchange rt0 (Authenticate "u" "p") net fresh
                 (post_request fresh "/cliente/authenticate" (Some "{}") None)
                 (response_of 200 body)).
  { split; reflexivity. }
  split; [exact Hx|].
  destruct (token_test_on_lists_and_strings rt0 "u" "p" net fresh _ _ Hx eq_refl)
    as [H _].
  destruct (H [PyStr "token"] eq_refl) as (Hr & Hin & _).
  split; [exact Hr|]. apply Hin. apply list_elem_of_here.
Defined.

(** The same answer twice. *)
Lemma context_fetch_is_idempotent_witness :
  let e := plant (PyInt 7) (PyStr "u-1") in
  let body := PyDict (context_of [PyDict e]) in
  let net := answering 200 body in
  let w1 := (get_client_context rt0 net fresh).2 in
  exchange rt0 GetClientContext net fresh
    (get_request fresh "/cliente/context" None) (response_of 200 body) ∧
  exchange rt0 GetClientContext net w1
    (get_request w1 "/cliente/context" None) (response_of 200 body) ∧
  self (get_client_context rt0 net w1).2 = self w1.
Proof.
  intros e body net w1.
  assert (Hx1 : exchange rt0 GetClientContext net fresh
                  (get_request fresh "/cliente/context" None) (response_of 200 body)).
  { split; reflexivity. }
  assert (Hx2 : exchange rt0 GetClientContext net w1
                  (get_request w1 "/cliente/context" None) (response_of 200 body)).
  { split; reflexivity. }
  split; [exact Hx1|]. split; [exact Hx2|].
  exact (context_fetch_is_idempotent rt0 net net fresh _ _ (context_of [PyDict e]) []
           _ _ (context_of [PyDict e]) [] e
           Hx1 eq_refl eq_refl eq_refl Hx2 eq_refl eq_refl eq_refl).
Defined.
